(** * Formidable installer: the scaffolding pipeline

    A shallow embedding of [src/utils/scaffold.ts] (class [Scaffold]) and of
    [src/commands/new.ts] (command [New]), with the properties of the
    dependency resolver, of the fetch-and-extract flow, of the line-rewriting
    steps and of the exit behaviour of the command.

    A JavaScript string is modelled by the [string] of the bytes of its
    UTF-8 encoding, the form in which the files of the application and the
    command line hold it. The library functions the code calls on strings
    ([split], [trim], [startsWith], [toLowerCase], [path.join]) are given
    on that encoding: a byte below 128 is the character itself and occurs
    nowhere inside the encoding of another character, so splitting at a
    slash or a line feed, comparing with a literal and testing a prefix
    are the same on bytes as on characters. *)

From Stdlib Require Import Ascii String.
From stdpp Require Import gmap strings list fin_maps.

Local Open Scope string_scope.
Local Open Scope list_scope.

(** ** JavaScript string primitives *)

Module JS.

(** [s.split(sep)] for a one-character separator: never empty, and the
    empty string splits into one empty piece. *)
Fixpoint split (sep : ascii) (s : string) : list string :=
  match s with
  | EmptyString => [EmptyString]
  | String c s' =>
      if Ascii.eqb c sep then EmptyString :: split sep s'
      else match split sep s' with
           | [] => [String c EmptyString]
           | w :: ws => String c w :: ws
           end
  end.

(** [pieces.join(sep)]. *)
Definition join (sep : ascii) (pieces : list string) : string :=
  String.concat (String sep EmptyString) pieces.

(** The characters [trim] removes are the white space and the line
    terminators of ECMAScript: TAB, LF, VT, FF, CR, SPACE, U+00A0, U+1680,
    U+2000 to U+200A, U+2028, U+2029, U+202F, U+205F, U+3000 and U+FEFF.
    The first six are one byte each; U+00A0 is the two bytes C2 A0; the
    others are three bytes each. *)
Definition whiteSpace1 (b1 : ascii) : bool :=
  let n := nat_of_ascii b1 in
  (Nat.leb 9 n && Nat.leb n 13) || Nat.eqb n 32.

Definition whiteSpace2 (b1 b2 : ascii) : bool :=
  Nat.eqb (nat_of_ascii b1) 194 && Nat.eqb (nat_of_ascii b2) 160.

Definition whiteSpace3 (b1 b2 b3 : ascii) : bool :=
  let n1 := nat_of_ascii b1 in
  let n2 := nat_of_ascii b2 in
  let n3 := nat_of_ascii b3 in
  (Nat.eqb n1 225 && Nat.eqb n2 154 && Nat.eqb n3 128)
  || (Nat.eqb n1 226 && Nat.eqb n2 128
      && ((Nat.leb 128 n3 && Nat.leb n3 138)
          || Nat.eqb n3 168 || Nat.eqb n3 169 || Nat.eqb n3 175))
  || (Nat.eqb n1 226 && Nat.eqb n2 129 && Nat.eqb n3 159)
  || (Nat.eqb n1 227 && Nat.eqb n2 128 && Nat.eqb n3 128)
  || (Nat.eqb n1 239 && Nat.eqb n2 187 && Nat.eqb n3 191).

(** [s.trimStart()]: the white-space characters in front are dropped, one,
    two or three bytes at a time. *)
Fixpoint trimStart (s : string) : string :=
  match s with
  | EmptyString => EmptyString
  | String b1 r1 =>
      if whiteSpace1 b1 then trimStart r1
      else
        match r1 with
        | EmptyString => s
        | String b2 r2 =>
            if whiteSpace2 b1 b2 then trimStart r2
            else
              match r2 with
              | EmptyString => s
              | String b3 r3 => if whiteSpace3 b1 b2 b3 then trimStart r3 else s
              end
        end
  end.

(** Nothing but white space. *)
Definition blank (s : string) : bool := String.eqb (trimStart s) "".

(** [s.trimEnd()]: the string is cut where nothing but white space follows.
    Inside the encoding of a character the rest starts with a continuation
    byte, which starts no white space, so the cut falls between
    characters. *)
Fixpoint trimEnd (s : string) : string :=
  match s with
  | EmptyString => EmptyString
  | String b rest => if blank s then EmptyString else String b (trimEnd rest)
  end.

Definition trim (s : string) : string := trimEnd (trimStart s).

(** [s.startsWith(p)]. *)
Definition startsWith (s p : string) : bool := String.prefix p s.

(** [s.toLowerCase()] as far as its comparisons with 'imba', 'react' and
    'vue' go: the letters A to Z are lowered and the bytes of any other
    character are kept. No other character is lowered to one of the letters
    of these words and nothing more, so the comparisons come out as in
    JavaScript. *)
Definition lowerChar (c : ascii) : ascii :=
  let n := nat_of_ascii c in
  if Nat.leb 65 n && Nat.leb n 90 then ascii_of_nat (n + 32) else c.

Fixpoint toLowerCase (s : string) : string :=
  match s with
  | EmptyString => EmptyString
  | String c s' => String (lowerChar c) (toLowerCase s')
  end.

(** [arr.includes(x)]. *)
Definition includes (arr : list string) (x : string) : bool :=
  existsb (String.eqb x) arr.

(** A value of type [string | null] used as a condition: [null] and the
    empty string are falsy. *)
Definition truthy (v : option string) : bool :=
  match v with
  | Some s => negb (String.eqb s "")
  | None => false
  end.

(** [v === lit] for [v : string | null]. *)
Definition strictEq (v : option string) (lit : string) : bool :=
  match v with
  | Some s => String.eqb s lit
  | None => false
  end.

End JS.

(** ** Node's [path.join] (POSIX) *)

Module Path.

Definition slash : ascii := "/"%char.

(** One step of [normalizeString]: the segments kept so far are held most
    recent first. *)
Definition pushSegment (allowAboveRoot : bool) (kept : list string) (seg : string)
  : list string :=
  if String.eqb seg "" || String.eqb seg "." then kept
  else if String.eqb seg ".." then
    match kept with
    | top :: rest =>
        if String.eqb top ".." then (if allowAboveRoot then ".." :: kept else kept)
        else rest
    | [] => if allowAboveRoot then [".."] else []
    end
  else seg :: kept.

Definition normalizeString (path : string) (allowAboveRoot : bool) : string :=
  JS.join slash (rev (fold_left (pushSegment allowAboveRoot) (JS.split slash path) [])).

Definition isAbsolute (path : string) : bool := JS.startsWith path "/".

Fixpoint endsWithSlash (path : string) : bool :=
  match path with
  | EmptyString => false
  | String c EmptyString => Ascii.eqb c slash
  | String _ rest => endsWithSlash rest
  end.

Definition normalize (path : string) : string :=
  if String.eqb path "" then "."
  else
    let body := normalizeString path (negb (isAbsolute path)) in
    if String.eqb body "" then
      (if isAbsolute path then "/" else if endsWithSlash path then "./" else ".")
    else
      (if isAbsolute path then "/" else "") +:+ body
        +:+ (if endsWithSlash path then "/" else "").

(** [path.join(...parts)]: the non-empty parts, separated by slashes, then
    normalized. *)
Definition join (parts : list string) : string :=
  match filter (fun p => p ≠ "") parts with
  | [] => "."
  | kept => normalize (JS.join slash kept)
  end.

End Path.

(** ** Onboarding answers *)

(** The object [New.onboarding]: every field is a string or [null]. *)
Record Onboarding := {
  type : option string;
  stack : option string;
  scaffolding : option string;
  database : option string;
  manager : option string;
}.

(** ** Archive entries, files and effects *)

(** An entry of the opened archive, as [unzipper] gives it: [type] is
    ["Directory"] or ["File"]. *)
Module Entry.
Record t := { path : string; type : string }.
End Entry.

(** Text files of the output directory, by path. *)
Abbreviation Files := (gmap string string).

Definition newline : ascii := "010"%char.
Definition tab : ascii := "009"%char.

(** Modelled from the spec: [src/utils/updateLine.ts] is not among the
    sources. The Line Mutator reads the whole file, splits it into lines,
    applies the transform to every line on its own, joins the lines with the
    same separator and writes the file back; a missing file is an error
    ([None]). *)
Definition updateLineContent (callback : string → string) (content : string) : string :=
  JS.join newline (callback <$> JS.split newline content).

Definition updateLine (file : string) (callback : string → string) (fs : Files)
  : option Files :=
  content ← fs !! file;
  Some (<[file := updateLineContent callback content]> fs).

(** Node's [fs.mkdirSync] on a disk: the directories and the regular files
    that exist, by path without a trailing slash. With [recursive] the
    directory and its missing ancestors are created and an existing
    directory is no error, but a regular file in the place of the directory
    or of one of its ancestors is one (EEXIST, ENOTDIR); without it an
    existing path or a missing parent is an error, the parent of a path of
    one segment being the root or the working directory, which exists.
    Permissions and the other errors of the system are not on the disk: a
    world may throw for them as it likes. *)
Module Fs.

Definition segments (path : string) : list string :=
  filter (fun seg => seg ≠ "") (JS.split Path.slash path).

Definition ofSegments (absolute : bool) (segs : list string) : string :=
  (if absolute then "/" else "") +:+ JS.join Path.slash segs.

Fixpoint prefixes {A} (l : list A) : list (list A) :=
  match l with
  | [] => []
  | x :: l' => [x] :: (cons x <$> prefixes l')
  end.

Definition ancestors (path : string) : list string :=
  ofSegments (Path.isAbsolute path) <$> prefixes (segments path).

Definition canonical (path : string) : string :=
  ofSegments (Path.isAbsolute path) (segments path).

Definition parent (path : string) : string :=
  ofSegments (Path.isAbsolute path) (removelast (segments path)).

Record Disk := { dirs : gset string; files : gset string }.

(** A regular file stands where the directory or an ancestor should be. *)
Definition blocked (path : string) (disk : Disk) : bool :=
  existsb (fun a => bool_decide (a ∈ files disk)) (ancestors path).

Definition mkdirSync (path : string) (recursive : bool) (disk : Disk) : option Disk :=
  if recursive then
    if blocked path disk then None
    else Some {| dirs := dirs disk ∪ list_to_set (ancestors path); files := files disk |}
  else if bool_decide (canonical path ∈ dirs disk ∪ files disk) then None
  else if bool_decide (parent path ∈ dirs disk) || Nat.leb (length (segments path)) 1
       then Some {| dirs := dirs disk ∪ {[canonical path]}; files := files disk |}
       else None.

End Fs.

(** ** The scaffold *)

Module Scaffold.

(** *** The dependency resolver *)

(** [Scaffold.getDependencies]: [deps] is threaded through the pushes. *)
Definition getDependencies (o : Onboarding) : list string :=
  let deps : list string := [] in
  let deps :=
    if JS.strictEq (type o) "full-stack" then
      let deps := deps ++ ["@formidablejs/pretty-errors"] in
      let deps :=
        if JS.strictEq (JS.toLowerCase <$> stack o) "imba" && JS.strictEq (scaffolding o) "spa"
        then (deps ++ ["@formidablejs/view"]) ++ ["axios"]
        else deps in
      match stack o with
      | Some s =>
          if JS.truthy (Some s) && JS.includes ["react"; "vue"] s
          then deps ++ ["@formidablejs/inertia"]
          else deps
      | None => deps
      end
    else deps in
  match database o with
  | Some d =>
      if JS.truthy (Some d) && negb (String.eqb d "skip") then deps ++ [d] else deps
  | None => deps
  end.

(** *** State and effects of the fetch-and-extract flow *)

(** The fields [success] and [busy], with their initializers. *)
Record State := { success : bool; busy : bool }.

Definition initial : State := {| success := false; busy := false |}.

Definition url : string :=
  "https://github.com/formidablejs/formidablejs/archive/refs/heads/main.zip".

(** What the flow does to the outside, and its writes to the two fields,
    in the order they happen. *)
Inductive Effect :=
| SetBusy (b : bool)
| SetSuccess (b : bool)
| Download (from to : string)
| OpenArchive (file : string)
| Mkdir (dir : string) (recursive : bool)
| WriteStream (file : string)
| CommandError (msg : string).

(** What the flow meets: where the temporary directory is, what the
    download resolves to, the entries of the archive ([None] when opening
    it is rejected), and which directory creations throw and which file
    streams emit an error. *)
Record World := {
  tmpdir : string;
  response : bool;
  archive : option (list Entry.t);
  mkdirThrows : string → bool;
  writeErrors : string → bool;
}.

(** A computation on the state that logs its effects and may throw. *)
Inductive Completion (A : Type) :=
| Returned (a : A)
| Threw.
Arguments Returned {A} a.
Arguments Threw {A}.

Definition Act (A : Type) : Type := State → Completion A * State * list Effect.

#[export] Instance Act_ret : MRet Act := fun A a st => (Returned a, st, []).

#[export] Instance Act_bind : MBind Act := fun A B k m st =>
  match m st with
  | (Returned a, st', log) =>
      match k a st' with
      | (c, st'', log') => (c, st'', log ++ log')
      end
  | (Threw, st', log) => (Threw, st', log)
  end.

Definition emit (e : Effect) : Act unit := fun st => (Returned (), st, [e]).

Definition throw {A} : Act A := fun st => (Threw, st, []).

Definition setBusy (b : bool) : Act unit := fun st =>
  (Returned (), {| success := success st; busy := b |}, [SetBusy b]).

Definition setSuccess (b : bool) : Act unit := fun st =>
  (Returned (), {| success := b; busy := busy st |}, [SetSuccess b]).

(** [arr.forEach(callback)]: a callback that throws ends the loop. *)
Fixpoint forEach {A} (callback : A → Act unit) (arr : list A) : Act unit :=
  match arr with
  | [] => mret ()
  | x :: rest => callback x ≫= fun _ => forEach callback rest
  end.

Definition skeleton (w : World) : string :=
  Path.join [tmpdir w; "formidablejs-master.zip"].

Definition openFile (w : World) (file : string) : Act (list Entry.t) :=
  emit (OpenArchive file) ≫= fun _ =>
  match archive w with
  | Some files => mret files
  | None => throw
  end.

Definition mkdirSync (w : World) (dir : string) (recursive : bool) : Act unit :=
  emit (Mkdir dir recursive) ≫= fun _ =>
  if mkdirThrows w dir then throw else mret ().

(** [dir.shift()] then [dir.join('/')]. *)
Definition relativePath (path : string) : string :=
  JS.join Path.slash (tail (JS.split Path.slash path)).

(** [entry.path.split('/').pop()]. *)
Definition baseName (path : string) : string :=
  List.last (JS.split Path.slash path) "".

(** The callback of [forEach] in [make]. *)
Definition extractEntry (w : World) (output : string) (entry : Entry.t) : Act unit :=
  let entryPath := Path.join [output; relativePath (Entry.path entry)] in
  if String.eqb (Entry.type entry) "Directory" then
    mkdirSync w entryPath true
  else
    if negb (String.eqb (baseName (Entry.path entry)) "package-lock.json") then
      emit (WriteStream entryPath)
    else mret ().

(** The [then] callback of [make]. *)
Definition downloaded (w : World) (output : string) : Act unit :=
  setBusy false ≫= fun _ =>
  if negb (response w) then setSuccess false
  else
    openFile w (skeleton w) ≫= fun directory =>
    forEach (extractEntry w output) directory ≫= fun _ =>
    setSuccess true.

(** The ['error'] listeners of the streams run after the callback: each
    one reports through [command.error] and assigns no field. *)
Definition streamErrors (w : World) (log : list Effect) : list Effect :=
  omap (fun e =>
          match e with
          | WriteStream file =>
              if writeErrors w file
              then Some (CommandError "Could not create Formidablejs application")
              else None
          | _ => None
          end) log.

Record Run := { completed : bool; final : State; trace : list Effect }.

(** [Scaffold.make] on a new scaffold, until nothing is left to run. *)
Definition make (w : World) (output : string) : Run :=
  let flow :=
    setBusy true ≫= fun _ =>
    emit (Download url (skeleton w)) ≫= fun _ =>
    downloaded w output in
  match flow initial with
  | (c, st, log) =>
      {| completed := match c with Returned _ => true | Threw => false end;
         final := st;
         trace := log ++ streamErrors w log |}
  end.

(** The value of [busy] after each effect of a trace. *)
Fixpoint busyAlong (b : bool) (log : list Effect) : list (Effect * bool) :=
  match log with
  | [] => []
  | SetBusy b' :: rest => (SetBusy b', b') :: busyAlong b' rest
  | e :: rest => (e, b) :: busyAlong b rest
  end.

(** *** The install step *)

Record Spawn := { command : string; args : list string; cwd : string }.

(** The call of [spawnSync] in [install]. *)
Definition installSpawn (o : Onboarding) (output : string) : Spawn :=
  let deps := getDependencies o in
  {| command := default "npm" (manager o);
     args :=
       [if Nat.ltb 0 (length deps) && JS.strictEq (manager o) "yarn"
        then "add" else "install"] ++ deps ++ ["--legacy-peer-deps"];
     cwd := output |}.

(** *** The line-rewriting steps *)

Definition clientUrlMatches (line : string) : bool :=
  String.eqb (JS.trim line) "CLIENT_URL=http://localhost:8000".

Definition clientUrlLine (line : string) : string :=
  if clientUrlMatches line then "# CLIENT_URL=http://localhost:8000" else line.

(** [Scaffold.commentOutClientUrl]. *)
Definition commentOutClientUrl (o : Onboarding) (output : string) (fs : Files)
  : option Files :=
  if negb (JS.strictEq (type o) "full-stack") then Some fs
  else updateLine (Path.join [output; ".env"]) clientUrlLine fs.

Definition driverMatches (line : string) : bool :=
  String.eqb (JS.trim line) "driver: 'memory'".

Definition driverLine (line : string) : string :=
  if driverMatches line then "  driver: 'file'" else line.

Definition sameSiteMatches (line : string) : bool :=
  String.eqb (JS.trim line) "same_site: helpers.env 'SESSION_SAME_SITE', 'none'".

Definition sameSiteLine (line : string) : string :=
  if sameSiteMatches line
  then String tab "same_site: helpers.env 'SESSION_SAME_SITE', 'lax'"
  else line.

(** [Scaffold.setSession]. *)
Definition setSession (o : Onboarding) (output : string) (fs : Files)
  : option Files :=
  if negb (JS.strictEq (type o) "full-stack") then Some fs
  else
    fs ← updateLine (Path.join [output; "config"; "session.imba"]) driverLine fs;
    updateLine (Path.join [output; "config"; "session.imba"]) sameSiteLine fs.

(** The [switch] of [setDatabase]: [connection] starts empty and no case
    is the default. *)
Definition connectionOf (database : option string) : string :=
  match database with
  | Some d =>
      if String.eqb d "mysql" then "mysql"
      else if String.eqb d "pg" then "pgsql"
      else if String.eqb d "sqlite3" then "sqlite"
      else if String.eqb d "tedious" then "mssql"
      else if String.eqb d "oracledb" then "oracle"
      else ""
  | None => ""
  end.

Definition dbConnectionMatches (line : string) : bool :=
  JS.startsWith line "DB_CONNECTION".

Definition dbConnectionLine (connection : string) (line : string) : string :=
  if dbConnectionMatches line then "DB_CONNECTION=" +:+ connection else line.

Definition nullAsDefaultMatches (line : string) : bool :=
  String.eqb (JS.trim line) "useNullAsDefault: null".

Definition nullAsDefaultLine (line : string) : string :=
  if nullAsDefaultMatches line then String tab "useNullAsDefault: true" else line.

(** [Scaffold.setDatabase]. *)
Definition setDatabase (o : Onboarding) (output : string) (fs : Files)
  : option Files :=
  if JS.strictEq (database o) "skip" then Some fs
  else
    let connection := connectionOf (database o) in
    fs ← updateLine (Path.join [output; ".env"]) (dbConnectionLine connection) fs;
    if String.eqb connection "sqlite" then
      updateLine (Path.join [output; "config"; "database.imba"]) nullAsDefaultLine fs
    else Some fs.

(** The transforms the steps hand to [updateLine], each with the condition
    under which it replaces the line. *)
Definition transforms (database : option string)
  : list ((string → bool) * (string → string)) :=
  [ (clientUrlMatches, clientUrlLine);
    (driverMatches, driverLine);
    (sameSiteMatches, sameSiteLine);
    (dbConnectionMatches, dbConnectionLine (connectionOf database));
    (nullAsDefaultMatches, nullAsDefaultLine) ].

End Scaffold.

(** ** The command *)

Module New.

(** The steps of the chain after the scaffold gate, and [git]. *)
Inductive Step :=
| Install | Publish | Modify | GenerateKey | SetPackageName
| CommentOutClientUrl | SetSession | SetDatabase | Cache | Git.

(** The parsed arguments and flags that decide the exit. *)
Record Args := { name : string; git : bool }.

(** What [run] finds: the working directory, which paths exist, which
    directories are empty, and the value of [scaffold.isSuccessful] once
    the wait for [isBusy] is over. *)
Record Env := {
  cwd : string;
  existsSync : string → bool;
  isDirEmpty : string → bool;
  isSuccessful : bool;
}.

(** How [run] ends: [this.error(msg)] throws an error that carries the
    message, [this.exit(code)] exits with the code, or the method returns. *)
Inductive Exit :=
| Error (msg : string)
| ExitWith (code : nat)
| Finished.

(** The exit status of the process: the framework exits with status 2 on
    an error thrown by [this.error]. *)
Definition status (e : Exit) : nat :=
  match e with
  | Error _ => 2
  | ExitWith code => code
  | Finished => 0
  end.

(** [failures] holds what was printed in red, [steps] the steps run. *)
Record Result := { exit : Exit; failures : list string; steps : list Step }.

(** A character the class [[^a-z0-9-_]] with flag [i] rejects. *)
Definition allowed (c : ascii) : bool :=
  let n := nat_of_ascii c in
  (Nat.leb 97 n && Nat.leb n 122) || (Nat.leb 65 n && Nat.leb n 90)
  || (Nat.leb 48 n && Nat.leb n 57) || Nat.eqb n 45 || Nat.eqb n 95.

(** [/[^a-z0-9-_]/gi.test(name)]. *)
Definition hasForbiddenChar (name : string) : bool :=
  existsb (fun c => negb (allowed c)) (list_ascii_of_string name).

(** [this.settings.application]. *)
Definition application (a : Args) (e : Env) : string :=
  Path.join [cwd e; if negb (String.eqb (name a) ".") then name a else ""].

(** [New.run] from the parsed arguments on, up to the calls of the chain:
    [steps] lists the steps called, in order, and what each does once called
    is not part of this function. The prompts of the onboarding and the grey
    and green messages are left out: they neither end the run nor touch the
    scaffold. *)
Definition run (a : Args) (e : Env) : Result :=
  if hasForbiddenChar (name a) && negb (String.eqb (name a) ".") then
    {| exit := Error "Invalid Application name.";
       failures := ["Invalid Application name."]; steps := [] |}
  else if existsSync e (application a e)
          && (String.eqb (name a) "." && negb (isDirEmpty e (application a e))) then
    {| exit := Error "Application already exists!";
       failures := ["Application already exists!"]; steps := [] |}
  else if negb (isSuccessful e) then
    {| exit := ExitWith 1;
       failures := ["Scaffolding failed. It could be your network connection."];
       steps := [] |}
  else
    {| exit := Finished;
       failures := [];
       steps := [Install; Publish; Modify; GenerateKey; SetPackageName;
                 CommentOutClientUrl; SetSession; SetDatabase; Cache]
                ++ (if git a then [Git] else []) |}.

End New.

(** ** The other steps of the chain *)

Module Chain.

(** The collaborators of the steps: each is used through its [make]. *)
Inductive Hook := ReactHook | VueHook.

Inductive Publishable :=
| AuthMailPublishable | MailPublishable | WebPublishable | SPAPublishable
| InertiaPublishable.

Inductive Modifier :=
| PrettyErrorsModifier | InertiaResolverModifier | InertiaConfigModifier.

(** What a step does, in order. *)
Inductive Action :=
| Log (msg : string)
| CopyFile (src dest : string)
| SpawnSync (call : Scaffold.Spawn)
| MakeHook (h : Hook) (output : string)
| MakePublishable (p : Publishable) (output : string)
| MakeModifier (m : Modifier) (output : string).

(** [Scaffold.createEnv]. *)
Definition createEnv (output : string) : list Action :=
  [CopyFile (Path.join [output; ".env.example"]) (Path.join [output; ".env"])].

(** The end of [install]: the files of the stack. *)
Definition hooks (o : Onboarding) (output : string) : list Action :=
  if JS.strictEq (type o) "full-stack" && JS.truthy (stack o) then
    (if JS.strictEq (JS.toLowerCase <$> stack o) "react"
     then [MakeHook ReactHook output] else [])
    ++ (if JS.strictEq (JS.toLowerCase <$> stack o) "vue"
        then [MakeHook VueHook output] else [])
  else [].

(** [Scaffold.install]. *)
Definition install (o : Onboarding) (output : string) : list Action :=
  [Log (String newline
          ("⚡ Installation will begin shortly. This might take a while ☕"
             +:+ String newline ""))]
  ++ createEnv output
  ++ [SpawnSync (Scaffold.installSpawn o output)]
  ++ hooks o output.

(** [Scaffold.publish]. *)
Definition publish (o : Onboarding) (output : string) : list Action :=
  [Log " "; MakePublishable AuthMailPublishable output;
   MakePublishable MailPublishable output]
  ++ (if JS.strictEq (type o) "full-stack" then
        if JS.strictEq (scaffolding o) "blank" then
          [MakePublishable WebPublishable output]
        else if JS.strictEq (scaffolding o) "spa" then
          [MakePublishable SPAPublishable output]
        else
          match stack o with
          | Some s =>
              if JS.truthy (Some s) && JS.includes ["react"; "vue"] s then
                [MakePublishable WebPublishable output;
                 MakePublishable InertiaPublishable output]
              else []
          | None => []
          end
      else []).

(** [Scaffold.modify]. *)
Definition modify (o : Onboarding) (output : string) : list Action :=
  if JS.strictEq (type o) "full-stack" then
    [MakeModifier PrettyErrorsModifier output]
    ++ (if JS.includes ["react"; "vue"] (default "" (stack o)) then
          [MakeModifier InertiaResolverModifier output;
           MakeModifier InertiaConfigModifier output]
        else [])
  else [].

(** [Scaffold.generateKey]. *)
Definition generateKey (output : string) : list Action :=
  [Log " ";
   SpawnSync {| Scaffold.command := "./node_modules/.bin/craftsman";
                Scaffold.args := ["key"]; Scaffold.cwd := output |}].

(** [Scaffold.cache]. *)
Definition cache (output : string) : list Action :=
  [SpawnSync {| Scaffold.command := "./node_modules/.bin/craftsman";
                Scaffold.args := ["cache"; "--debug"]; Scaffold.cwd := output |}].

(** [Scaffold.git]. *)
Definition git (output : string) : list Action :=
  [SpawnSync {| Scaffold.command := "git"; Scaffold.args := ["init"];
                Scaffold.cwd := output |}].

(** [s.replace(new RegExp(c, 'g'), d)] for a pattern that is one plain
    character. *)
Fixpoint replaceEvery (c d : ascii) (s : string) : string :=
  match s with
  | EmptyString => EmptyString
  | String x rest => String (if Ascii.eqb x c then d else x) (replaceEvery c d rest)
  end.

(** The name [setPackageName] writes into the manifest. *)
Definition packageName (appName : string) : string :=
  replaceEvery " "%char "-"%char appName.

End Chain.

(** ** The rest of the command *)

(** The parsed flags: each is a string or absent, [git] is a boolean. *)
Module Flags.
Record t := {
  git : bool;
  type : option string;
  stack : option string;
  scaffolding : option string;
  database : option string;
  manager : option string;
}.
End Flags.

Module Cli.

(** Node's [path.basename] (POSIX, no extension given): the last segment
    that is not empty, or the empty string. *)
Definition basename (path : string) : string :=
  List.last (Fs.segments path) "".

(** The questions of the onboarding. *)
Inductive Prompt := AskType | AskDatabase | AskStack | AskScaffolding | AskManager.

(** What the onboarding meets: [Database.getDriver] and the answers the
    prompts resolve to; these are in [src/onboard], outside the sources, and
    any value is allowed for them. *)
Record Answers := {
  getDriver : string → option string;
  answerType : option string;
  answerDatabase : option string;
  answerStack : option string;
  answerScaffolding : option string;
  answerManager : option string;
}.

(** A question asked, or a grey line logged. *)
Inductive Event :=
| Asked (p : Prompt)
| Dim (msg : string).

(** A value inside a template string: [null] prints as the word. *)
Definition shown (v : option string) : string := default "null" v.

(** The five assignments from the flags, on the initial answers. *)
Definition fromFlags (a : Answers) (f : Flags.t) : Onboarding :=
  {| type := if JS.truthy (Flags.type f) then Flags.type f else None;
     stack := if JS.truthy (Flags.stack f) then Flags.stack f else None;
     scaffolding := if JS.truthy (Flags.scaffolding f) then Flags.scaffolding f else None;
     database :=
       match Flags.database f with
       | Some d => if JS.truthy (Some d) then getDriver a d else None
       | None => None
       end;
     manager := if JS.truthy (Flags.manager f) then Flags.manager f else None |}.

Definition onType (a : Answers) (o : Onboarding) : Onboarding * list Event :=
  if negb (JS.truthy (type o)) then
    ({| type := answerType a; stack := stack o; scaffolding := scaffolding o;
        database := database o; manager := manager o |}, [Asked AskType])
  else
    (o, [Dim ("Creating "
              +:+ (if JS.strictEq (type o) "api" then "an API" else "a full-stack")
              +:+ " application")]).

Definition onDatabase (a : Answers) (o : Onboarding) : Onboarding * list Event :=
  if negb (JS.truthy (database o)) then
    ({| type := type o; stack := stack o; scaffolding := scaffolding o;
        database := answerDatabase a; manager := manager o |}, [Asked AskDatabase])
  else
    (o, if negb (JS.strictEq (database o) "skip")
        then [Dim ("Using " +:+ shown (database o) +:+ " as default database")]
        else []).

Definition onStack (a : Answers) (o : Onboarding) : Onboarding * list Event :=
  if negb (JS.truthy (stack o)) && JS.strictEq (type o) "full-stack" then
    ({| type := type o; stack := answerStack a; scaffolding := scaffolding o;
        database := database o; manager := manager o |}, [Asked AskStack])
  else
    (o, if JS.strictEq (type o) "full-stack"
        then [Dim ("Using " +:+ shown (stack o) +:+ " as default stack")]
        else []).

Definition onScaffolding (a : Answers) (o : Onboarding) : Onboarding * list Event :=
  if negb (JS.truthy (scaffolding o)) && JS.strictEq (stack o) "imba"
     && JS.strictEq (type o) "full-stack" then
    ({| type := type o; stack := stack o; scaffolding := answerScaffolding a;
        database := database o; manager := manager o |}, [Asked AskScaffolding])
  else
    (o, if JS.strictEq (stack o) "imba" && JS.strictEq (type o) "full-stack"
        then [Dim ("Using " +:+ shown (scaffolding o) +:+ " as default scaffolding")]
        else []).

Definition onManager (a : Answers) (o : Onboarding) : Onboarding * list Event :=
  if negb (JS.truthy (manager o)) then
    ({| type := type o; stack := stack o; scaffolding := scaffolding o;
        database := database o; manager := answerManager a |}, [Asked AskManager])
  else
    (o, [Dim ("Using " +:+ shown (manager o) +:+ " as the default package manager")]).

(** The onboarding of [New.run], from the flags to the final answers, with
    the questions asked and the lines logged on the way. *)
Definition onboard (a : Answers) (f : Flags.t) : Onboarding * list Event :=
  let '(o1, e1) := onType a (fromFlags a f) in
  let '(o2, e2) := onDatabase a o1 in
  let '(o3, e3) := onStack a o2 in
  let '(o4, e4) := onScaffolding a o3 in
  let '(o5, e5) := onManager a o4 in
  (o5, e1 ++ e2 ++ e3 ++ e4 ++ e5).

(** The name handed to the scaffold: [args.name], or for [.] the base name
    of the application directory. *)
Definition appName (a : New.Args) (e : New.Env) : string :=
  if String.eqb (New.name a) "." then basename (New.application a e) else New.name a.

(** The lines [New.run] logs once the chain has run: green, then grey. *)
Inductive Line :=
| Green (msg : string)
| Grey (msg : string).

Definition closing (a : New.Args) (e : New.Env) (o : Onboarding) : list Line :=
  [Green (String newline "✅ Your application is ready!");
   Green ("👉 Get started with the following commands:" +:+ String newline "")]
  ++ (if negb (String.eqb (New.cwd e) (New.application a e))
      then [Grey ("$  cd " +:+ appName a e)] else [])
  ++ (if JS.strictEq (type o) "full-stack"
         && JS.includes ["react"; "vue"] (default "" (JS.toLowerCase <$> stack o))
      then [Grey ("$  " +:+ shown (manager o) +:+ " install");
            Grey ("$  " +:+ shown (manager o) +:+ " run mix:dev")]
      else [])
  ++ [Grey ("$  " +:+ shown (manager o) +:+ " start")].

End Cli.

(** * Specifications and sample inputs *)

(** A string with no separator in it. *)
Definition oneLine (sep : ascii) (s : string) : Prop := JS.split sep s = [s].

(** ** The rules of the resolver *)

Module Resolver.

(** The rules of the resolver as a specification: four contributions,
    each from the answers alone, concatenated in a fixed order. The test
    for the Imba stack is a parameter. *)
Section Rules.

Variable imba : Onboarding → bool.

Definition fullStack (o : Onboarding) : bool :=
  bool_decide (type o = Some "full-stack").

Definition prettyErrors (o : Onboarding) : list string :=
  if fullStack o then ["@formidablejs/pretty-errors"] else [].

Definition viewAndHttp (o : Onboarding) : list string :=
  if fullStack o && imba o && bool_decide (scaffolding o = Some "spa")
  then ["@formidablejs/view"; "axios"] else [].

Definition inertia (o : Onboarding) : list string :=
  if fullStack o && bool_decide (stack o = Some "react" ∨ stack o = Some "vue")
  then ["@formidablejs/inertia"] else [].

(** The database is set when it is neither [null] nor the empty string. *)
Definition driver (o : Onboarding) : list string :=
  match database o with
  | Some d => if bool_decide (d ≠ "" ∧ d ≠ "skip") then [d] else []
  | None => []
  end.

Definition resolve (o : Onboarding) : list string :=
  prettyErrors o ++ viewAndHttp o ++ inertia o ++ driver o.

End Rules.

(** The stack is ["imba"], letter for letter. *)
Definition imbaExactly (o : Onboarding) : bool :=
  bool_decide (stack o = Some "imba").

(** The stack is ["imba"] once put in lower case. *)
Definition imbaAnyCase (o : Onboarding) : bool :=
  bool_decide (JS.toLowerCase <$> stack o = Some "imba").

End Resolver.

(** ** Sample answers *)

Definition fullStackReact : Onboarding :=
  {| type := Some "full-stack"; stack := Some "react"; scaffolding := None;
     database := Some "skip"; manager := None |}.

Definition apiOnly : Onboarding :=
  {| type := Some "api"; stack := None; scaffolding := None;
     database := None; manager := None |}.

Definition upperCaseImba : Onboarding :=
  {| type := Some "full-stack"; stack := Some "IMBA"; scaffolding := Some "spa";
     database := Some "skip"; manager := None |}.

Definition imbaSpaWithAxios : Onboarding :=
  {| type := Some "full-stack"; stack := Some "imba"; scaffolding := Some "spa";
     database := Some "axios"; manager := None |}.

(** ** Paths *)

Fixpoint lastChar (s : string) : option ascii :=
match s with
| EmptyString => None
| String c EmptyString => Some c
| String _ rest => lastChar rest
end.

(** A segment that [normalize] keeps as it is. *)
Definition plainSegment (seg : string) : Prop :=
seg ≠ "" ∧ seg ≠ "." ∧ seg ≠ ".." ∧ oneLine Path.slash seg.

(** ** Runs of the fetch-and-extract flow *)

Definition effects {A} (r : Scaffold.Completion A * Scaffold.State * list Scaffold.Effect)
  : list Scaffold.Effect := r.2.

Definition stateOf {A} (r : Scaffold.Completion A * Scaffold.State * list Scaffold.Effect)
  : Scaffold.State := r.1.2.

Definition returned {A} (r : Scaffold.Completion A * Scaffold.State * list Scaffold.Effect)
  : bool := match r.1.1 with Scaffold.Returned _ => true | Scaffold.Threw => false end.

(** Creating a directory or opening a file stream. *)
Definition fileEffect (e : Scaffold.Effect) : Prop :=
match e with
| Scaffold.Mkdir _ _ | Scaffold.WriteStream _ => True
| _ => False
end.

Definition withWriteErrors (w : Scaffold.World) (errors : string → bool) : Scaffold.World :=
{| Scaffold.tmpdir := Scaffold.tmpdir w;
   Scaffold.response := Scaffold.response w;
   Scaffold.archive := Scaffold.archive w;
   Scaffold.mkdirThrows := Scaffold.mkdirThrows w;
   Scaffold.writeErrors := errors |}.

Definition sampleArchive : list Entry.t :=
[ {| Entry.path := "repo-main/"; Entry.type := "Directory" |};
  {| Entry.path := "repo-main/config/"; Entry.type := "Directory" |};
  {| Entry.path := "repo-main/config/app.json"; Entry.type := "File" |};
  {| Entry.path := "repo-main/package-lock.json"; Entry.type := "File" |} ].

(** The download resolves to [true] and no operation on files fails. *)
Definition quietWorld : Scaffold.World :=
{| Scaffold.tmpdir := "/tmp";
   Scaffold.response := true;
   Scaffold.archive := Some sampleArchive;
   Scaffold.mkdirThrows := fun _ => false;
   Scaffold.writeErrors := fun _ => false |}.

(** The download resolves to [true] and every file stream emits an error. *)
Definition readOnlyWorld : Scaffold.World :=
withWriteErrors quietWorld (fun _ => true).

(** ** Line transforms *)

(** A transform that gives one line for one line. *)
Definition keepsLines (f : string → string) : Prop :=
∀ l, oneLine newline l → oneLine newline (f l).

(** A transform that puts one fixed line in the place of the lines it
    matches, whatever its condition. *)
Definition replaceWhen (matches : string → bool) (replacement : string) (line : string)
  : string :=
if matches line then replacement else line.

(** The reading "the first line whose prefix matches": only the first
    matching line is replaced. *)
Fixpoint rewriteFirst (matches : string → bool) (replacement : string)
  (lines : list string) : list string :=
match lines with
| [] => []
| l :: rest =>
    if matches l then replacement :: rest
    else l :: rewriteFirst matches replacement rest
end.

(** ** Sample files *)

Definition sampleEnv : string :=
"APP_NAME=Formidable" +:+ String newline
  ("CLIENT_URL=http://localhost:8000" +:+ String newline
     ("DB_CONNECTION=sqlite" +:+ String newline "DB_CONNECTION_POOL=5")).

Definition answersWith (db : option string) : Onboarding :=
{| type := Some "api"; stack := None; scaffolding := None; database := db;
   manager := Some "npm" |}.

Definition sampleFiles : Files :=
{[ "/tmp/app/.env" := sampleEnv ]}.

Definition sampleDatabaseConfig : string :=
"export default {" +:+ String newline
  (String tab "useNullAsDefault: null" +:+ String newline "}").

Definition sampleFilesWithConfig : Files :=
<["/tmp/app/config/database.imba" := sampleDatabaseConfig]> sampleFiles.

(** ** Sample runs of the command *)

Definition dotArgs : New.Args := {| New.name := "."; New.git := false |}.

(** The working directory exists and is empty, and the scaffold succeeds. *)
Definition emptyDirectory : New.Env :=
{| New.cwd := "/home/dev/app";
   New.existsSync := fun _ => true;
   New.isDirEmpty := fun _ => true;
   New.isSuccessful := true |}.

(** The working directory has a space in its name. *)
Definition spacedDirectory : New.Env :=
{| New.cwd := "/home/dev/my app";
   New.existsSync := fun _ => true;
   New.isDirEmpty := fun _ => true;
   New.isSuccessful := true |}.

(** ** The characters of a string, the questions of a run *)

(** [c] occurs in [s]. *)
Definition occurs (c : ascii) (s : string) : Prop := In c (list_ascii_of_string s).

(** The questions among the events of an onboarding, in order. *)
Definition questions (events : list Cli.Event) : list Cli.Prompt :=
omap (fun e => match e with Cli.Asked p => Some p | Cli.Dim _ => None end) events.

(** The stacks a run can hold: unset, or one of the options of the stack
    flag and of its prompt. *)
Definition stacks : list (option string) :=
[None; Some "imba"; Some "react"; Some "vue"].

(** A name the check of [New.run] lets through. *)
Definition accepted (name : string) : Prop :=
New.hasForbiddenChar name && negb (String.eqb name ".") = false.

(** U+00A0 and U+FEFF, as they are in a file. *)
Definition noBreakSpace : string := String "194"%char (String "160"%char "").

Definition byteOrderMark : string :=
String "239"%char (String "187"%char (String "191"%char "")).

(** A flag that was given: neither absent nor empty. *)
Definition given (flag : option string) : Prop := JS.truthy flag = true.

(** The destination of an entry. *)
Definition destination (output : string) (entry : Entry.t) : string :=
Path.join [output; Scaffold.relativePath (Entry.path entry)].

(** What the callback of [forEach] is to do for an entry: create the
    directory of a directory entry, with the recursive option; open a stream
    to the destination of any other entry, unless its base name is that of
    the lock file. *)
Definition entryEffects (output : string) (entry : Entry.t) : list Scaffold.Effect :=
if bool_decide (Entry.type entry = "Directory")
then [Scaffold.Mkdir (destination output entry) true]
else if bool_decide (Scaffold.baseName (Entry.path entry) = "package-lock.json") then []
     else [Scaffold.WriteStream (destination output entry)].

(** No directory creation throws on these entries. *)
Definition unhindered (w : Scaffold.World) (output : string) (es : list Entry.t) : Prop :=
∀ e, e ∈ es → Entry.type e = "Directory" →
     Scaffold.mkdirThrows w (destination output e) = false.

(** The start of every trace whose download resolved to [true]. *)
Definition opening (w : Scaffold.World) : list Scaffold.Effect :=
[ Scaffold.SetBusy true; Scaffold.Download Scaffold.url (Scaffold.skeleton w);
  Scaffold.SetBusy false; Scaffold.OpenArchive (Scaffold.skeleton w) ].

(** The disk after the directory creations of a trace, in order; [None]
    when one of them throws. *)
Fixpoint directoriesAfter (log : list Scaffold.Effect) (disk : Fs.Disk) : option Fs.Disk :=
match log with
| [] => Some disk
| Scaffold.Mkdir dir recursive :: rest =>
    Fs.mkdirSync dir recursive disk ≫= directoriesAfter rest
| _ :: rest => directoriesAfter rest disk
end.

(** The directories the creations of a trace name, with their ancestors. *)
Fixpoint created (log : list Scaffold.Effect) : gset string :=
match log with
| [] => ∅
| Scaffold.Mkdir dir _ :: rest => list_to_set (Fs.ancestors dir) ∪ created rest
| _ :: rest => created rest
end.

(** The world of a disk: a recursive creation throws exactly when the disk
    makes [mkdirSync] fail. *)
Definition onDisk (w : Scaffold.World) (disk : Fs.Disk) : Prop :=
∀ dir, Scaffold.mkdirThrows w dir = true ↔ Fs.mkdirSync dir true disk = None.

Definition emptyDisk : Fs.Disk := {| Fs.dirs := ∅; Fs.files := ∅ |}.

(** A disk on which [/tmp/app/config] is a regular file. *)
Definition configIsFile : Fs.Disk :=
{| Fs.dirs := {[ "/tmp"; "/tmp/app" ]}; Fs.files := {[ "/tmp/app/config" ]} |}.

(** The sample archive downloaded onto a disk: the creations the disk
    blocks throw. *)
Definition diskWorld (disk : Fs.Disk) : Scaffold.World :=
{| Scaffold.tmpdir := "/tmp";
   Scaffold.response := true;
   Scaffold.archive := Some sampleArchive;
   Scaffold.mkdirThrows := fun dir => Fs.blocked dir disk;
   Scaffold.writeErrors := fun _ => false |}.

(** The download resolves to [true] and the archive cannot be opened. *)
Definition unreadableWorld : Scaffold.World :=
{| Scaffold.tmpdir := "/tmp";
   Scaffold.response := true;
   Scaffold.archive := None;
   Scaffold.mkdirThrows := fun _ => false;
   Scaffold.writeErrors := fun _ => false |}.

(** ** More sample inputs *)

Definition myApp : New.Args := {| New.name := "my-app"; New.git := true |}.

Definition devHome : New.Env :=
{| New.cwd := "/home/dev";
   New.existsSync := fun _ => false;
   New.isDirEmpty := fun _ => true;
   New.isSuccessful := true |}.

(** The download does not resolve to [true]. *)
Definition offlineWorld : Scaffold.World :=
{| Scaffold.tmpdir := "/tmp";
   Scaffold.response := false;
   Scaffold.archive := Some sampleArchive;
   Scaffold.mkdirThrows := fun _ => false;
   Scaffold.writeErrors := fun _ => false |}.

(** Creating [/tmp/app/config/] throws. *)
Definition blockedWorld : Scaffold.World :=
{| Scaffold.tmpdir := "/tmp";
   Scaffold.response := true;
   Scaffold.archive := Some sampleArchive;
   Scaffold.mkdirThrows := fun dir => String.eqb dir "/tmp/app/config/";
   Scaffold.writeErrors := fun _ => false |}.



(** Every flag is given and the type is an API. *)
Definition allFlags : Flags.t :=
{| Flags.git := false; Flags.type := Some "api"; Flags.stack := Some "react";
   Flags.scaffolding := Some "spa"; Flags.database := Some "PostgreSQL / Amazon Redshift";
   Flags.manager := Some "yarn" |}.

(** No flag is given. *)
Definition noFlags : Flags.t :=
{| Flags.git := false; Flags.type := None; Flags.stack := None;
   Flags.scaffolding := None; Flags.database := None; Flags.manager := None |}.

(** The driver of every label is [pg]; the prompts answer a full-stack
    application on Imba with the SPA scaffolding, SQLite and npm. *)
Definition imbaAnswers : Cli.Answers :=
{| Cli.getDriver := fun _ => Some "pg";
   Cli.answerType := Some "full-stack";
   Cli.answerDatabase := Some "sqlite3";
   Cli.answerStack := Some "imba";
   Cli.answerScaffolding := Some "spa";
   Cli.answerManager := Some "npm" |}.

(** * Properties *)

(** ** The library functions on examples *)

Example split_path :
  JS.split Path.slash "repo-main/config/app.json" = ["repo-main"; "config"; "app.json"].
Proof. reflexivity. Qed.

Example split_trailing_slash : JS.split Path.slash "repo-main/" = ["repo-main"; ""].
Proof. reflexivity. Qed.

Example split_empty : JS.split Path.slash "" = [""].
Proof. reflexivity. Qed.

Example trim_both_ends : JS.trim (String tab "  driver: 'memory'  ") = "driver: 'memory'".
Proof. reflexivity. Qed.

Example trim_keeps_inner : JS.trim " a  b " = "a  b".
Proof. reflexivity. Qed.

Example trim_wide_white_space :
  JS.trim (byteOrderMark +:+ " a b" +:+ noBreakSpace +:+ String tab "") = "a b"
  ∧ JS.trim (noBreakSpace +:+ noBreakSpace) = ""
  ∧ JS.trim ("a" +:+ noBreakSpace +:+ "b") = "a" +:+ noBreakSpace +:+ "b".
Proof. by repeat split. Qed.

(** A character that is no white space is kept, also when its last byte
    is the last byte of one. *)
Example trim_keeps_letters : JS.trim " déjà " = "déjà" ∧ JS.trim "à" = "à".
Proof. by split. Qed.

Example toLowerCase_mixed : JS.toLowerCase "ImBa-9" = "imba-9".
Proof. reflexivity. Qed.

Example join_plain : Path.join ["/tmp/app"; "config/app.json"] = "/tmp/app/config/app.json".
Proof. reflexivity. Qed.

Example join_empty_part : Path.join ["/tmp/app"; ""] = "/tmp/app".
Proof. reflexivity. Qed.

Example join_dots : Path.join ["/tmp/app/"; "../x/./y/"] = "/tmp/x/y/".
Proof. reflexivity. Qed.

Example join_above : Path.join ["a"; "../../b"; ""] = "../b".
Proof. reflexivity. Qed.

Example join_nothing : Path.join [""; ""] = ".".
Proof. reflexivity. Qed.

Example forbidden_space : New.hasForbiddenChar "my app" = true.
Proof. reflexivity. Qed.

Example allowed_name : New.hasForbiddenChar "My_app-2" = false.
Proof. reflexivity. Qed.

(** ** Appending *)

Lemma append_nil_l (b : string) : "" +:+ b = b.
Proof. reflexivity. Qed.

Lemma append_cons (c : ascii) (a b : string) : String c a +:+ b = String c (a +:+ b).
Proof. reflexivity. Qed.

Create Rewrite HintDb str.
#[export] Hint Rewrite append_nil_l append_cons : str.

Ltac str_simpl := repeat (simpl; autorewrite with str).

Lemma append_assoc (a b c : string) : (a +:+ b) +:+ c = a +:+ (b +:+ c).
Proof. induction a as [|x a IH]; str_simpl; [done | by rewrite IH]. Qed.

Lemma append_nil_r (a : string) : a +:+ "" = a.
Proof. induction a as [|x a IH]; str_simpl; [done | by rewrite IH]. Qed.

(** ** Splitting and joining *)

Section SplitJoin.

Variable sep : ascii.

Lemma split_nonempty s : JS.split sep s ≠ [].
Proof.
  destruct s as [|c s]; simpl; [done |].
  destruct (Ascii.eqb c sep); [done |].
  by destruct (JS.split sep s).
Qed.

Lemma join_cons a b ls :
  JS.join sep (a :: b :: ls) = a +:+ String sep (JS.join sep (b :: ls)).
Proof. reflexivity. Qed.

Lemma join_split s : JS.join sep (JS.split sep s) = s.
Proof.
  induction s as [|c s IH]; simpl; [done |].
  pose proof (split_nonempty s) as Hne.
  destruct (JS.split sep s) as [|w ws]; [done |].
  destruct (Ascii.eqb_spec c sep) as [-> | _].
  - rewrite join_cons. str_simpl. by rewrite IH.
  - destruct ws as [|w' ws].
    + unfold JS.join in *. simpl in *. by rewrite IH.
    + rewrite join_cons in *. str_simpl. by rewrite IH.
Qed.

Lemma split_append a b :
  JS.split sep (a +:+ String sep b) = JS.split sep a ++ JS.split sep b.
Proof.
  induction a as [|c a IH]; str_simpl.
  - by rewrite Ascii.eqb_refl.
  - rewrite IH. destruct (Ascii.eqb c sep); [done |].
    pose proof (split_nonempty a) as Hne.
    by destruct (JS.split sep a).
Qed.

Lemma split_join ls :
  ls ≠ [] → Forall (oneLine sep) ls → JS.split sep (JS.join sep ls) = ls.
Proof.
  intros Hne Hall. induction Hall as [|l ls Hl Hls IH]; [done |].
  destruct ls as [|l' ls]; [exact Hl |].
  rewrite join_cons, split_append, Hl, IH; done.
Qed.

Lemma split_pieces s : Forall (oneLine sep) (JS.split sep s).
Proof.
  induction s as [|c s IH]; simpl.
  - by constructor.
  - pose proof (split_nonempty s) as Hne.
    destruct (JS.split sep s) as [|w ws]; [done |].
    destruct (Ascii.eqb c sep) eqn:E.
    + by constructor.
    + inversion IH as [|? ? Hw Hws]; subst. constructor; [| done].
      unfold oneLine in *. simpl. by rewrite E, Hw.
Qed.

Lemma oneLine_split_cons seg rest :
  oneLine sep seg → JS.split sep (seg +:+ String sep rest) = seg :: JS.split sep rest.
Proof. intros Hseg. by rewrite split_append, Hseg. Qed.

End SplitJoin.

(** ** The dependency resolver *)

Lemma strictEq_decide (v : option string) (lit : string) :
  JS.strictEq v lit = bool_decide (v = Some lit).
Proof.
  destruct v as [s|]; simpl; [| done].
  destruct (String.eqb_spec s lit) as [-> | Hne].
  - by rewrite bool_decide_eq_true_2.
  - rewrite bool_decide_eq_false_2; congruence.
Qed.

Lemma includes_react_vue (s : string) :
  JS.includes ["react"; "vue"] s
  = bool_decide (Some s = Some "react" ∨ Some s = Some "vue").
Proof.
  unfold JS.includes. simpl.
  destruct (String.eqb_spec s "react") as [-> | H1].
  - by rewrite bool_decide_eq_true_2; [| left].
  - destruct (String.eqb_spec s "vue") as [-> | H2].
    + by rewrite bool_decide_eq_true_2; [| right].
    + rewrite bool_decide_eq_false_2; [done |]. intros [?|?]; congruence.
Qed.

(** The test for Imba lowers the stack first: a stack written ["IMBA"],
    which is none of the options of the flag, would add the view and
    HTTP-client packages. *)
Lemma getDependencies_not_exact_imba :
  Scaffold.getDependencies upperCaseImba
    = ["@formidablejs/pretty-errors"; "@formidablejs/view"; "axios"]
  ∧ Resolver.resolve Resolver.imbaExactly upperCaseImba
    = ["@formidablejs/pretty-errors"]
  ∧ ¬ (∀ o, Scaffold.getDependencies o = Resolver.resolve Resolver.imbaExactly o).
Proof.
  split; [reflexivity |]. split; [reflexivity |].
  intros H. specialize (H upperCaseImba). vm_compute in H. discriminate H.
Qed.

(** For every record whatever, also one whose stack is none of the
    options, [getDependencies] follows the rules with the test for Imba made
    in lower case. *)
Lemma getDependencies_resolve :
  (∀ o, Scaffold.getDependencies o = Resolver.resolve Resolver.imbaAnyCase o)
  ∧ Scaffold.getDependencies fullStackReact
    = ["@formidablejs/pretty-errors"; "@formidablejs/inertia"]
  ∧ Scaffold.getDependencies apiOnly = []
  ∧ Scaffold.getDependencies imbaSpaWithAxios
    = ["@formidablejs/pretty-errors"; "@formidablejs/view"; "axios"; "axios"].
Proof.
  split; [| by repeat split].
  intros [ty st sc db mg].
  unfold Scaffold.getDependencies, Resolver.resolve, Resolver.prettyErrors,
    Resolver.viewAndHttp, Resolver.inertia, Resolver.driver, Resolver.fullStack,
    Resolver.imbaAnyCase.
  cbn [type stack scaffolding database manager].
  rewrite !strictEq_decide.
  assert (Hdb : ∀ deps : list string,
    match db with
    | Some d =>
        if JS.truthy (Some d) && negb (String.eqb d "skip") then deps ++ [d] else deps
    | None => deps
    end
    = deps ++ match db with
              | Some d => if bool_decide (d ≠ "" ∧ d ≠ "skip") then [d] else []
              | None => []
              end).
  { intros deps. destruct db as [d|]; [| by rewrite app_nil_r]. unfold JS.truthy.
    destruct (String.eqb_spec d ""), (String.eqb_spec d "skip");
      cbn [negb andb]; case_bool_decide;
      first [done | by rewrite app_nil_r | exfalso; tauto]. }
  rewrite Hdb. clear Hdb.
  destruct (bool_decide (ty = Some "full-stack")); simpl; [| done].
  assert (Hst : ∀ deps : list string,
    match st with
    | Some s =>
        if JS.truthy (Some s) && JS.includes ["react"; "vue"] s
        then deps ++ ["@formidablejs/inertia"] else deps
    | None => deps
    end
    = deps ++ (if bool_decide (st = Some "react" ∨ st = Some "vue")
               then ["@formidablejs/inertia"] else [])).
  { intros deps. destruct st as [s|].
    - rewrite includes_react_vue. unfold JS.truthy.
      destruct (String.eqb_spec s "") as [-> | _]; cbn [negb andb].
      + case_bool_decide as H; [| by rewrite app_nil_r].
        destruct H as [H | H]; discriminate H.
      + repeat case_bool_decide;
          first [done | by rewrite app_nil_r | exfalso; naive_solver].
    - case_bool_decide as H; [| by rewrite app_nil_r].
      destruct H as [H | H]; discriminate H. }
  rewrite Hst. clear Hst.
  destruct (bool_decide (JS.toLowerCase <$> st = Some "imba")),
    (bool_decide (sc = Some "spa")); simpl; reflexivity.
Qed.

(** C1: for every answers record whose stack is unset or one of imba,
    react and vue, [getDependencies] returns the concatenation, in this
    order, of the pretty-errors package if the type is full-stack; the view
    package then axios if moreover the stack is imba and the scaffolding is
    spa; the inertia package if moreover the stack is react or vue; the
    database identifier itself if the database is set and not skip, where
    an empty identifier, which no driver has, counts as unset. Nothing
    is removed or deduplicated (a database named axios is listed a second
    time), the result may be empty, and full-stack with react and database
    skip gives the two packages of the example. *)
Theorem getDependencies_on_answers (o : Onboarding) :
  stack o ∈ stacks →
  Scaffold.getDependencies o = Resolver.resolve Resolver.imbaExactly o
  ∧ (database o ≠ Some "" →
     Resolver.driver o
     = match database o with
       | Some d => if bool_decide (d ≠ "skip") then [d] else []
       | None => []
       end)
  ∧ Scaffold.getDependencies fullStackReact
    = ["@formidablejs/pretty-errors"; "@formidablejs/inertia"]
  ∧ Scaffold.getDependencies apiOnly = []
  ∧ Scaffold.getDependencies imbaSpaWithAxios
    = ["@formidablejs/pretty-errors"; "@formidablejs/view"; "axios"; "axios"].
Proof.
  intros Hst. split; [| split; [| by repeat split]].
  2: { intros Hdb. unfold Resolver.driver. destruct (database o) as [d|]; [| done].
       repeat case_bool_decide; first [done | exfalso; intuition congruence]. }
  rewrite (proj1 getDependencies_resolve).
  assert (Himba : Resolver.imbaAnyCase o = Resolver.imbaExactly o).
  { unfold Resolver.imbaAnyCase, Resolver.imbaExactly, stacks in *.
    repeat (apply elem_of_cons in Hst as [-> | Hst]; [reflexivity |]).
    by apply elem_of_nil in Hst. }
  unfold Resolver.resolve, Resolver.viewAndHttp. by rewrite Himba.
Qed.

(** The answers of the example: full-stack with react and no database. *)
Lemma getDependencies_fullStackReact :
  stack fullStackReact ∈ stacks
  ∧ Scaffold.getDependencies fullStackReact
    = ["@formidablejs/pretty-errors"; "@formidablejs/inertia"].
Proof.
  assert (Hst : stack fullStackReact ∈ stacks)
    by (do 2 apply list_elem_of_further; apply list_elem_of_here).
  split; [exact Hst |].
  exact (proj1 (getDependencies_on_answers fullStackReact Hst)).
Defined.

(** ** The install step *)



(** ** Paths *)

Lemma lastChar_append (pre s : string) : s ≠ "" → lastChar (pre +:+ s) = lastChar s.
Proof.
  intros Hs. induction pre as [|c pre IH]; [done |].
  rewrite append_cons. simpl. rewrite IH.
  destruct (pre +:+ s) eqn:E; [| done].
  destruct pre; [by rewrite append_nil_l in E | by rewrite append_cons in E].
Qed.

Lemma endsWithSlash_lastChar (s : string) :
  Path.endsWithSlash s = bool_decide (lastChar s = Some Path.slash).
Proof.
  induction s as [|c s IH]; [done |].
  simpl. destruct s as [|c' s]; [| exact IH].
  destruct (Ascii.eqb_spec c Path.slash) as [-> | Hne].
  - by rewrite bool_decide_eq_true_2.
  - rewrite bool_decide_eq_false_2; congruence.
Qed.

Lemma oneLine_lastChar (seg : string) :
  oneLine Path.slash seg → lastChar seg ≠ Some Path.slash.
Proof.
  unfold oneLine. induction seg as [|c seg IH]; [done |].
  simpl. destruct (Ascii.eqb_spec c Path.slash) as [-> | Hne].
  - intros H. apply (f_equal length) in H. simpl in H.
    pose proof (split_nonempty Path.slash seg) as Hn.
    destruct (JS.split Path.slash seg); [done | discriminate H].
  - pose proof (split_nonempty Path.slash seg) as Hn.
    destruct (JS.split Path.slash seg) as [|w ws] eqn:E; [done |].
    intros H. destruct seg as [|c' seg]; [congruence |].
    apply IH. congruence.
Qed.

Lemma join_snoc (sep : ascii) (ks : list string) (s : string) :
  ks ≠ [] → JS.join sep (ks ++ [s]) = JS.join sep ks +:+ String sep s.
Proof.
  induction ks as [|k ks IH]; [done |]. intros _.
  destruct ks as [|k' ks]; [done |].
  change ((k :: k' :: ks) ++ [s]) with (k :: k' :: (ks ++ [s])).
  rewrite !join_cons. change (k' :: ks ++ [s]) with ((k' :: ks) ++ [s]).
  rewrite IH; [| done]. by rewrite append_assoc.
Qed.

Lemma join_snoc_suffix (sep : ascii) (ks : list string) (s : string) :
  ∃ pre, JS.join sep (ks ++ [s]) = pre +:+ s.
Proof.
  destruct ks as [|k ks].
  - by exists "".
  - exists (JS.join sep (k :: ks) +:+ String sep ""). rewrite join_snoc; [| done].
    by rewrite append_assoc.
Qed.

Lemma append_suffix_nonempty (pre s : string) : s ≠ "" → pre +:+ s ≠ "".
Proof. intros Hs. destruct pre; [done | by rewrite append_cons]. Qed.

Lemma pushSegment_plain (above : bool) (kept : list string) (seg : string) :
  plainSegment seg → Path.pushSegment above kept seg = seg :: kept.
Proof.
  intros (H1 & H2 & H3 & _). unfold Path.pushSegment.
  apply String.eqb_neq in H1, H2, H3. by rewrite H1, H2, H3.
Qed.

Lemma normalize_last (p : string) (xs : list string) (seg : string) :
  JS.split Path.slash p = xs ++ [seg] → plainSegment seg →
  ∃ pre, Path.normalize p = pre +:+ seg.
Proof.
  intros Hsplit Hseg.
  assert (Hp : ∃ pre, p = pre +:+ seg).
  { rewrite <- (join_split Path.slash p), Hsplit. apply join_snoc_suffix. }
  destruct Hp as [pre0 Hp].
  destruct Hseg as (Hne & Hd & Hdd & Hone).
  assert (Hslash : Path.endsWithSlash p = false).
  { rewrite endsWithSlash_lastChar, Hp, lastChar_append by done.
    apply bool_decide_eq_false_2, oneLine_lastChar, Hone. }
  unfold Path.normalize.
  destruct (String.eqb_spec p "") as [Hempty | _].
  { exfalso. rewrite Hp in Hempty. by apply (append_suffix_nonempty pre0 seg). }
  unfold Path.normalizeString. rewrite Hsplit, fold_left_app. simpl.
  rewrite pushSegment_plain by done. simpl.
  destruct (join_snoc_suffix Path.slash
              (rev (fold_left (Path.pushSegment (negb (Path.isAbsolute p))) xs [])) seg)
    as [pre Hpre].
  rewrite Hpre, Hslash.
  destruct (String.eqb_spec (pre +:+ seg) "") as [Hempty | _].
  { exfalso. by apply (append_suffix_nonempty pre seg). }
  exists ((if Path.isAbsolute p then "/" else "") +:+ pre).
  by rewrite append_nil_r, append_assoc.
Qed.

Lemma join_last (parts : list string) (seg : string) :
  plainSegment seg → ∃ pre, Path.join (parts ++ [seg]) = pre +:+ seg.
Proof.
  intros Hseg. pose proof Hseg as (Hne & _ & _ & Hone).
  unfold Path.join. rewrite filter_app, filter_cons_True, filter_nil by done.
  destruct (filter (λ p : string, p ≠ "") parts) as [|k ks] eqn:E.
  - simpl. apply (normalize_last seg []); [exact Hone | done].
  - change (∃ pre, Path.normalize (JS.join Path.slash ((k :: ks) ++ [seg])) = pre +:+ seg).
    rewrite join_snoc by done.
    apply (normalize_last _ (JS.split Path.slash (JS.join Path.slash (k :: ks)))); [| done].
    by rewrite split_append, Hone.
Qed.

Lemma plain_env : plainSegment ".env".
Proof. by repeat split. Qed.

Lemma plain_database_imba : plainSegment "database.imba".
Proof. by repeat split. Qed.

(** The environment file and the database configuration are two files. *)
Lemma env_not_database_config (output : string) :
  Path.join [output; ".env"] ≠ Path.join [output; "config"; "database.imba"].
Proof.
  destruct (join_last [output] ".env" plain_env) as [pre1 H1].
  destruct (join_last [output; "config"] "database.imba" plain_database_imba) as [pre2 H2].
  simpl in H1, H2. rewrite H1, H2. intros Heq.
  apply (f_equal lastChar) in Heq. rewrite !lastChar_append in Heq by done.
  discriminate Heq.
Qed.

(** ** Fetch and extract *)

Lemma relativePath_strip (root rest : string) :
  oneLine Path.slash root →
  Scaffold.relativePath (root +:+ "/" +:+ rest) = rest.
Proof.
  intros Hroot. unfold Scaffold.relativePath.
  change ("/" +:+ rest) with (String Path.slash rest).
  rewrite oneLine_split_cons by done. simpl. apply join_split.
Qed.

Lemma relativePath_one_segment (root : string) :
  oneLine Path.slash root → Scaffold.relativePath root = "".
Proof. intros Hroot. unfold Scaffold.relativePath. by rewrite Hroot. Qed.

Lemma baseName_strip (root rest : string) :
  oneLine Path.slash root →
  Scaffold.baseName (root +:+ "/" +:+ rest) = List.last (JS.split Path.slash rest) "".
Proof.
  intros Hroot. unfold Scaffold.baseName.
  change ("/" +:+ rest) with (String Path.slash rest).
  rewrite oneLine_split_cons by done.
  pose proof (split_nonempty Path.slash rest) as Hne.
  by destruct (JS.split Path.slash rest).
Qed.

Lemma baseName_one_segment (root : string) :
  oneLine Path.slash root → Scaffold.baseName root = root.
Proof. intros Hroot. unfold Scaffold.baseName. by rewrite Hroot. Qed.

Lemma extractEntry_keeps_state (w : Scaffold.World) (output : string) (e : Entry.t)
  (st : Scaffold.State) :
  stateOf (Scaffold.extractEntry w output e st) = st
  ∧ Forall fileEffect (effects (Scaffold.extractEntry w output e st)).
Proof.
  unfold Scaffold.extractEntry, Scaffold.mkdirSync, stateOf, effects, mbind,
    Scaffold.Act_bind, Scaffold.emit, Scaffold.throw, mret, Scaffold.Act_ret.
  destruct (String.eqb _ "Directory"); simpl.
  - destruct (Scaffold.mkdirThrows w _); simpl; split; by repeat constructor.
  - destruct (negb _); simpl; split; by repeat constructor.
Qed.

Lemma forEach_keeps_state (w : Scaffold.World) (output : string) (es : list Entry.t)
  (st : Scaffold.State) :
  stateOf (Scaffold.forEach (Scaffold.extractEntry w output) es st) = st
  ∧ Forall fileEffect (effects (Scaffold.forEach (Scaffold.extractEntry w output) es st)).
Proof.
  revert st. induction es as [|e es IH]; intros st; [by split |].
  simpl. unfold mbind, Scaffold.Act_bind.
  destruct (extractEntry_keeps_state w output e st) as [Hst Hlog].
  destruct (Scaffold.extractEntry w output e st) as [[c st'] log].
  unfold stateOf, effects in Hst, Hlog. simpl in Hst, Hlog. subst st'.
  destruct c as [[]|]; [| by split].
  destruct (IH st) as [Hst' Hlog'].
  destruct (Scaffold.forEach (Scaffold.extractEntry w output) es st) as [[c' st''] log'].
  unfold stateOf, effects in *. simpl in *. split; [done |].
  by apply Forall_app.
Qed.

(** The three ways [make] can go, with the effects of each in order. *)
Lemma make_outcome (w : Scaffold.World) (output : string) :
  let start := [Scaffold.SetBusy true; Scaffold.Download Scaffold.url (Scaffold.skeleton w);
                Scaffold.SetBusy false] in
  Scaffold.make w output =
  if negb (Scaffold.response w) then
    {| Scaffold.completed := true; Scaffold.final := Scaffold.initial;
       Scaffold.trace := start ++ [Scaffold.SetSuccess false] |}
  else
    match Scaffold.archive w with
    | None =>
        {| Scaffold.completed := false; Scaffold.final := Scaffold.initial;
           Scaffold.trace := start ++ [Scaffold.OpenArchive (Scaffold.skeleton w)] |}
    | Some es =>
        let r := Scaffold.forEach (Scaffold.extractEntry w output) es Scaffold.initial in
        let log := start ++ [Scaffold.OpenArchive (Scaffold.skeleton w)] ++ effects r
                   ++ (if returned r then [Scaffold.SetSuccess true] else []) in
        {| Scaffold.completed := returned r;
           Scaffold.final := {| Scaffold.success := returned r; Scaffold.busy := false |};
           Scaffold.trace := log ++ Scaffold.streamErrors w log |}
    end.
Proof.
  unfold Scaffold.make, Scaffold.downloaded, Scaffold.openFile, mbind, Scaffold.Act_bind,
    Scaffold.setBusy, Scaffold.setSuccess, Scaffold.emit, Scaffold.throw, mret,
    Scaffold.Act_ret.
  cbn [Scaffold.success Scaffold.busy Scaffold.initial].
  destruct (Scaffold.response w); cbn [negb]; [| reflexivity].
  destruct (Scaffold.archive w) as [es|]; [| reflexivity].
  change {| Scaffold.success := false; Scaffold.busy := false |} with Scaffold.initial.
  destruct (forEach_keeps_state w output es Scaffold.initial) as [Hst _].
  destruct (Scaffold.forEach (Scaffold.extractEntry w output) es Scaffold.initial)
    as [[c st] log].
  unfold stateOf in Hst. simpl in Hst. subst st.
  destruct c as [[]|]; unfold effects, returned; simpl; rewrite ?app_nil_r; reflexivity.
Qed.

Lemma streamErrors_only (w : Scaffold.World) (log : list Scaffold.Effect) (e : Scaffold.Effect) :
  e ∈ Scaffold.streamErrors w log → ∃ msg, e = Scaffold.CommandError msg.
Proof.
  unfold Scaffold.streamErrors. intros (x & _ & Hx)%list_elem_of_omap.
  destruct x; try discriminate Hx.
  destruct (Scaffold.writeErrors w file); [| discriminate Hx].
  injection Hx as <-. by eexists.
Qed.

Lemma extractEntry_withWriteErrors (w : Scaffold.World) (errors : string → bool)
  (output : string) :
  Scaffold.extractEntry (withWriteErrors w errors) output = Scaffold.extractEntry w output.
Proof. reflexivity. Qed.

(** C2, on the code: when the download resolves to [true], [busy] is put
    back to [false] before the archive is opened and before any entry is
    handled; the second component is the value of [busy] after each effect. *)
Theorem make_clears_busy_before_opening :
  Scaffold.busyAlong false (Scaffold.trace (Scaffold.make quietWorld "/tmp/app"))
  = [ (Scaffold.SetBusy true, true);
      (Scaffold.Download Scaffold.url "/tmp/formidablejs-master.zip", true);
      (Scaffold.SetBusy false, false);
      (Scaffold.OpenArchive "/tmp/formidablejs-master.zip", false);
      (Scaffold.Mkdir "/tmp/app" true, false);
      (Scaffold.Mkdir "/tmp/app/config/" true, false);
      (Scaffold.WriteStream "/tmp/app/config/app.json", false);
      (Scaffold.SetSuccess true, false) ].
Proof. reflexivity. Qed.

(** The same in every world: the effects of [make] start with the write of
    [true] to [busy], the download and the write of [false] to [busy]; the
    archive is opened, if at all, after these. *)
Lemma make_trace_start (w : Scaffold.World) (output : string) :
  ∃ rest,
    Scaffold.trace (Scaffold.make w output)
    = Scaffold.SetBusy true :: Scaffold.Download Scaffold.url (Scaffold.skeleton w)
        :: Scaffold.SetBusy false :: rest
    ∧ (Scaffold.SetBusy true ∉ rest) ∧ (Scaffold.SetBusy false ∉ rest).
Proof.
  rewrite make_outcome.
  destruct (Scaffold.response w); cbn [negb].
  - destruct (Scaffold.archive w) as [es|].
    + destruct (forEach_keeps_state w output es Scaffold.initial) as [_ Hlog].
      cbv zeta. cbn [Scaffold.trace].
      set (r := Scaffold.forEach (Scaffold.extractEntry w output) es Scaffold.initial) in *.
      set (done := if returned r then [Scaffold.SetSuccess true] else []).
      set (late := Scaffold.streamErrors w _).
      exists ((Scaffold.OpenArchive (Scaffold.skeleton w) :: effects r ++ done) ++ late).
      split; [reflexivity |].
      assert (Hno : ∀ b, Scaffold.SetBusy b ∉
                (Scaffold.OpenArchive (Scaffold.skeleton w) :: effects r ++ done) ++ late).
      { intros b [Hin | Hin]%elem_of_app.
        - apply elem_of_cons in Hin as [Hin | Hin]; [discriminate Hin |].
          apply elem_of_app in Hin as [Hin | Hin].
          + rewrite Forall_forall in Hlog. by apply Hlog in Hin.
          + subst done. destruct (returned r); [| by apply elem_of_nil in Hin].
            apply list_elem_of_singleton in Hin. discriminate Hin.
        - apply streamErrors_only in Hin as [msg Hmsg]. discriminate Hmsg. }
      split; apply Hno.
    + eexists. split; [reflexivity |].
      split; intros Hin; apply list_elem_of_singleton in Hin; discriminate Hin.
  - eexists. split; [reflexivity |].
    split; intros Hin; apply list_elem_of_singleton in Hin; discriminate Hin.
Qed.

(** ** The Line Mutator *)

Lemma lines_updateLineContent (f : string → string) (content : string) :
  keepsLines f →
  JS.split newline (updateLineContent f content) = f <$> JS.split newline content.
Proof.
  intros Hf. unfold updateLineContent. apply split_join.
  - intros H%fmap_nil_inv. by apply (split_nonempty newline content).
  - apply Forall_fmap. eapply Forall_impl; [apply split_pieces |]. exact Hf.
Qed.

Lemma updateLineContent_twice (f : string → string) (content : string) :
  keepsLines f → (∀ l, f (f l) = f l) →
  updateLineContent f (updateLineContent f content) = updateLineContent f content.
Proof.
  intros Hf Hidem. unfold updateLineContent at 1.
  rewrite lines_updateLineContent by done. unfold updateLineContent.
  f_equal. rewrite <- list_fmap_compose. apply list_fmap_ext. intros _ l _. apply Hidem.
Qed.

Lemma updateLineContent_no_match (f : string → string) (content : string) :
  (∀ l, l ∈ JS.split newline content → f l = l) → updateLineContent f content = content.
Proof.
  intros Hf. unfold updateLineContent.
  rewrite <- (join_split newline content) at 2. f_equal.
  rewrite <- (list_fmap_id (JS.split newline content)) at 2.
  apply list_fmap_ext. intros i l Hl. apply Hf. by eapply list_elem_of_lookup_2.
Qed.

Lemma replaceWhen_idempotent (matches : string → bool) (replacement line : string) :
  replaceWhen matches replacement (replaceWhen matches replacement line)
  = replaceWhen matches replacement line.
Proof.
  unfold replaceWhen. destruct (matches line) eqn:E; [| by rewrite E].
  by destruct (matches replacement).
Qed.

Lemma replaceWhen_keepsLines (matches : string → bool) (replacement : string) :
  oneLine newline replacement → keepsLines (replaceWhen matches replacement).
Proof. intros Hr l Hl. unfold replaceWhen. by destruct (matches l). Qed.

Lemma replaceWhen_no_match (matches : string → bool) (replacement line : string) :
  matches line = false → replaceWhen matches replacement line = line.
Proof. intros E. unfold replaceWhen. by rewrite E. Qed.

Lemma connectionOf_values (database : option string) :
  Scaffold.connectionOf database ∈ ["mysql"; "pgsql"; "sqlite"; "mssql"; "oracle"; ""].
Proof.
  unfold Scaffold.connectionOf. destruct database as [d|].
  - repeat (match goal with |- context [String.eqb d ?s] => destruct (String.eqb d s) end;
            [repeat first [apply list_elem_of_here | apply list_elem_of_further] |]).
    repeat first [apply list_elem_of_here | apply list_elem_of_further].
  - repeat first [apply list_elem_of_here | apply list_elem_of_further].
Qed.

Lemma connection_line_oneLine (database : option string) :
  oneLine newline ("DB_CONNECTION=" +:+ Scaffold.connectionOf database).
Proof.
  pose proof (connectionOf_values database) as H.
  repeat (apply elem_of_cons in H as [-> | H]; [reflexivity |]).
  by apply elem_of_nil in H.
Qed.

(** Every transform of the pipeline is of that shape. *)
Lemma transforms_shape (database : option string) (m : string → bool) (f : string → string) :
  (m, f) ∈ Scaffold.transforms database →
  ∃ replacement, f = replaceWhen m replacement ∧ oneLine newline replacement.
Proof.
  unfold Scaffold.transforms. intros H.
  repeat (apply elem_of_cons in H as [[= -> ->] | H]; [eexists; split; reflexivity |]).
  apply elem_of_cons in H as [[= -> ->] | H].
  - eexists. split; [reflexivity |]. apply connection_line_oneLine.
  - repeat (apply elem_of_cons in H as [[= -> ->] | H]; [eexists; split; reflexivity |]).
    by apply elem_of_nil in H.
Qed.

(** C8, as stated, fails in its reason: the transform of the DB_CONNECTION
    line gives a line that still starts with DB_CONNECTION, so its result
    matches its own condition. *)
Lemma dbConnectionLine_still_matches :
  Scaffold.dbConnectionLine "pgsql" "DB_CONNECTION=sqlite" = "DB_CONNECTION=pgsql"
  ∧ Scaffold.dbConnectionMatches "DB_CONNECTION=pgsql" = true
  ∧ ¬ (∀ database m f, (m, f) ∈ Scaffold.transforms database →
       ∀ l, m l = true → m (f l) = false).
Proof.
  split; [reflexivity |]. split; [reflexivity |].
  intros H.
  specialize (H (Some "pg") Scaffold.dbConnectionMatches (Scaffold.dbConnectionLine "pgsql")).
  assert (Hin : (Scaffold.dbConnectionMatches, Scaffold.dbConnectionLine "pgsql")
                ∈ Scaffold.transforms (Some "pg")).
  { do 3 apply list_elem_of_further. apply list_elem_of_here. }
  specialize (H Hin "DB_CONNECTION=sqlite" eq_refl). discriminate H.
Qed.

(** C8, amended: each transform the pipeline hands to the Line Mutator is
    idempotent on lines, so that the mutation applied twice gives the file
    of the mutation applied once, and a file none of whose lines matches is
    rewritten as it was. A transform puts a fixed line in the place of the
    lines it matches and keeps the others: for the client URL, the session
    driver, the same_site and the useNullAsDefault lines the result no
    longer matches; for the DB_CONNECTION line it still does, and is
    rewritten to itself. *)
Theorem transforms_idempotent
  (database : option string) (m : string → bool) (f : string → string) :
  (m, f) ∈ Scaffold.transforms database →
  (∀ l, f (f l) = f l)
  ∧ (∀ content,
       updateLineContent f (updateLineContent f content) = updateLineContent f content)
  ∧ (∀ content, (∀ l, l ∈ JS.split newline content → m l = false) →
       updateLineContent f content = content)
  ∧ (∀ l, m l = false → f l = l)
  ∧ (m ≠ Scaffold.dbConnectionMatches → ∀ l, m l = true → m (f l) = false)
  ∧ (m = Scaffold.dbConnectionMatches → ∀ l, m l = true →
       f l = "DB_CONNECTION=" +:+ Scaffold.connectionOf database
       ∧ m (f l) = true ∧ f (f l) = f l).
Proof.
  intros Hin. destruct (transforms_shape _ _ _ Hin) as (r & -> & Hr).
  split; [| split; [| split; [| split; [| split]]]].
  - apply replaceWhen_idempotent.
  - intros content. apply updateLineContent_twice.
    + by apply replaceWhen_keepsLines.
    + apply replaceWhen_idempotent.
  - intros content Hno. apply updateLineContent_no_match.
    intros l Hl. apply replaceWhen_no_match, Hno, Hl.
  - apply replaceWhen_no_match.
  - intros Hm l Hl. unfold Scaffold.transforms in Hin.
    repeat (apply elem_of_cons in Hin as [[= Hm' Hf'] | Hin];
            [first [ by destruct Hm
                   | rewrite Hf'; rewrite Hm' in Hl |- *;
                     match goal with
                     | H : ?m' l = true |- _ => unfold m' in H
                     end;
                     match goal with
                     | |- ?m' (?f' l) = false => unfold f', m'
                     end;
                     by rewrite Hl ] |]).
    by apply elem_of_nil in Hin.
  - intros -> l Hl. unfold Scaffold.transforms in Hin.
    assert (Hf : replaceWhen Scaffold.dbConnectionMatches r
                 = Scaffold.dbConnectionLine (Scaffold.connectionOf database)).
    { repeat (apply elem_of_cons in Hin as [[Hm' Hf']%pair_equal_spec | Hin];
              [first [ exact Hf'
                     | exfalso;
                       apply (f_equal (fun g => g "DB_CONNECTION=sqlite")) in Hm';
                       discriminate Hm' ] |]).
      by apply elem_of_nil in Hin. }
    assert (Hfix : Scaffold.dbConnectionMatches
                     ("DB_CONNECTION=" +:+ Scaffold.connectionOf database) = true)
      by reflexivity.
    rewrite Hf. unfold Scaffold.dbConnectionLine. by rewrite Hl, Hfix.
Qed.

(** The client URL transform is one of them: on a file with the line, twice
    is once. *)
Lemma clientUrlLine_twice_sampleEnv :
  updateLineContent Scaffold.clientUrlLine (updateLineContent Scaffold.clientUrlLine sampleEnv)
  = updateLineContent Scaffold.clientUrlLine sampleEnv.
Proof.
  exact (proj1 (proj2 (transforms_idempotent None Scaffold.clientUrlMatches
                         Scaffold.clientUrlLine (list_elem_of_here _ _))) sampleEnv).
Defined.

(** ** The client URL *)

(** C7, as stated, fails: a line that is the client URL line with spaces in
    front is not exactly that line, and it is rewritten. *)
Lemma clientUrlLine_rewrites_indented :
  "  CLIENT_URL=http://localhost:8000" ≠ "CLIENT_URL=http://localhost:8000"
  ∧ Scaffold.clientUrlLine "  CLIENT_URL=http://localhost:8000"
    = "# CLIENT_URL=http://localhost:8000"
  ∧ ¬ (∀ l, l ≠ "CLIENT_URL=http://localhost:8000" → Scaffold.clientUrlLine l = l).
Proof.
  split; [done |]. split; [reflexivity |].
  intros H. by specialize (H "  CLIENT_URL=http://localhost:8000" ltac:(done)).
Qed.

(** C7, amended: [commentOutClientUrl] does nothing unless the type is
    full-stack; when it runs it hands the environment file and its transform
    to the Line Mutator. The transform rewrites a line whose text without the
    white space around it is the client URL line, so the line itself among
    them and the line after a no-break space, to the commented line, and
    leaves every other line as it is: the
    same setting written otherwise (spaces around the equals sign, a trailing
    slash, an [export] in front) is not touched. *)
Theorem commentOutClientUrl_trimmed_match :
  (∀ o output fs,
     type o ≠ Some "full-stack" → Scaffold.commentOutClientUrl o output fs = Some fs)
  ∧ (∀ o output fs,
       type o = Some "full-stack" →
       Scaffold.commentOutClientUrl o output fs
       = updateLine (Path.join [output; ".env"]) Scaffold.clientUrlLine fs)
  ∧ (∀ l, JS.trim l = "CLIENT_URL=http://localhost:8000" →
       Scaffold.clientUrlLine l = "# CLIENT_URL=http://localhost:8000")
  ∧ Scaffold.clientUrlLine "CLIENT_URL=http://localhost:8000"
    = "# CLIENT_URL=http://localhost:8000"
  ∧ Scaffold.clientUrlLine (noBreakSpace +:+ "CLIENT_URL=http://localhost:8000")
    = "# CLIENT_URL=http://localhost:8000"
  ∧ (∀ l, JS.trim l ≠ "CLIENT_URL=http://localhost:8000" → Scaffold.clientUrlLine l = l)
  ∧ Scaffold.clientUrlLine "CLIENT_URL = http://localhost:8000"
    = "CLIENT_URL = http://localhost:8000"
  ∧ Scaffold.clientUrlLine "CLIENT_URL=http://localhost:8000/"
    = "CLIENT_URL=http://localhost:8000/"
  ∧ Scaffold.clientUrlLine "export CLIENT_URL=http://localhost:8000"
    = "export CLIENT_URL=http://localhost:8000".
Proof.
  split; [| split; [| split; [| split; [| split; [| split; [| by repeat split]]]]]].
  - intros o output fs Hty. unfold Scaffold.commentOutClientUrl.
    rewrite strictEq_decide, bool_decide_eq_false_2; done.
  - intros o output fs Hty. unfold Scaffold.commentOutClientUrl.
    by rewrite strictEq_decide, bool_decide_eq_true_2.
  - intros l Hl. unfold Scaffold.clientUrlLine, Scaffold.clientUrlMatches. by rewrite Hl.
  - reflexivity.
  - reflexivity.
  - intros l Hl. unfold Scaffold.clientUrlLine, Scaffold.clientUrlMatches.
    apply String.eqb_neq in Hl. by rewrite Hl.
Qed.

(** An API application keeps its environment file as it is. *)
Lemma commentOutClientUrl_api_sampleFiles :
  Scaffold.commentOutClientUrl apiOnly "/tmp/app" sampleFiles = Some sampleFiles.
Proof.
  apply (proj1 commentOutClientUrl_trimmed_match apiOnly "/tmp/app" sampleFiles).
  discriminate.
Defined.

(** ** The database *)

Lemma setDatabase_unfold (o : Onboarding) (output : string) (fs : Files) (env : string) :
  database o ≠ Some "skip" →
  fs !! Path.join [output; ".env"] = Some env →
  Scaffold.setDatabase o output fs
  = let connection := Scaffold.connectionOf (database o) in
    let fs1 := <[Path.join [output; ".env"]
                 := updateLineContent (Scaffold.dbConnectionLine connection) env]> fs in
    if String.eqb connection "sqlite"
    then updateLine (Path.join [output; "config"; "database.imba"])
           Scaffold.nullAsDefaultLine fs1
    else Some fs1.
Proof.
  intros Hdb Henv. unfold Scaffold.setDatabase.
  rewrite strictEq_decide, bool_decide_eq_false_2 by done.
  cbv zeta. unfold updateLine. rewrite Henv. reflexivity.
Qed.

Lemma dbConnectionLine_keepsLines (database : option string) :
  keepsLines (Scaffold.dbConnectionLine (Scaffold.connectionOf database)).
Proof.
  apply (replaceWhen_keepsLines Scaffold.dbConnectionMatches). apply connection_line_oneLine.
Qed.

Lemma nullAsDefaultLine_keepsLines : keepsLines Scaffold.nullAsDefaultLine.
Proof. by apply (replaceWhen_keepsLines Scaffold.nullAsDefaultMatches). Qed.

Lemma sampleFiles_env : sampleFiles !! Path.join ["/tmp/app"; ".env"] = Some sampleEnv.
Proof. reflexivity. Qed.

(** C6, as stated, fails: with two lines that start with DB_CONNECTION both
    are rewritten, not the first alone. *)
Lemma setDatabase_rewrites_second_match :
  JS.split newline
    <$> (Scaffold.setDatabase (answersWith (Some "pg")) "/tmp/app" sampleFiles
           ≫= fun fs' => fs' !! "/tmp/app/.env")
  = Some ["APP_NAME=Formidable"; "CLIENT_URL=http://localhost:8000";
          "DB_CONNECTION=pgsql"; "DB_CONNECTION=pgsql"]
  ∧ rewriteFirst Scaffold.dbConnectionMatches "DB_CONNECTION=pgsql"
      (JS.split newline sampleEnv)
    = ["APP_NAME=Formidable"; "CLIENT_URL=http://localhost:8000";
       "DB_CONNECTION=pgsql"; "DB_CONNECTION_POOL=5"]
  ∧ JS.split newline
      <$> (Scaffold.setDatabase (answersWith (Some "pg")) "/tmp/app" sampleFiles
             ≫= fun fs' => fs' !! "/tmp/app/.env")
    ≠ Some (rewriteFirst Scaffold.dbConnectionMatches "DB_CONNECTION=pgsql"
              (JS.split newline sampleEnv)).
Proof.
  assert (Hcode :
    JS.split newline
      <$> (Scaffold.setDatabase (answersWith (Some "pg")) "/tmp/app" sampleFiles
             ≫= fun fs' => fs' !! "/tmp/app/.env")
    = Some ["APP_NAME=Formidable"; "CLIENT_URL=http://localhost:8000";
            "DB_CONNECTION=pgsql"; "DB_CONNECTION=pgsql"]).
  { rewrite (setDatabase_unfold _ _ _ sampleEnv) by done.
    cbv zeta. cbn [answersWith database].
    change (Scaffold.connectionOf (Some "pg")) with "pgsql".
    change (String.eqb "pgsql" "sqlite") with false. cbv iota.
    cbn [mbind option_bind]. change "/tmp/app/.env" with (Path.join ["/tmp/app"; ".env"]).
    rewrite lookup_insert_eq. reflexivity. }
  split; [exact Hcode |]. split; [reflexivity |].
  rewrite Hcode. intros H. discriminate H.
Qed.

(** C6, amended: unless the database is skip, [setDatabase] maps the driver
    through the table (mysql to mysql, pg to pgsql, sqlite3 to sqlite,
    tedious to mssql, oracledb to oracle), rewrites every line of the
    environment file that starts with DB_CONNECTION to DB_CONNECTION= and
    the connection, and leaves the other lines as they are; exactly when the
    connection is sqlite it also rewrites, in the database configuration,
    every line that is [useNullAsDefault: null] up to the white space around
    it, a no-break space included, to a tab and [useNullAsDefault: true]; no
    other file changes. With pg, the line DB_CONNECTION=sqlite becomes
    DB_CONNECTION=pgsql. *)
Theorem setDatabase_rewrites_matching_lines :
  (∀ o output fs, database o = Some "skip" → Scaffold.setDatabase o output fs = Some fs)
  ∧ (Scaffold.connectionOf (Some "mysql") = "mysql"
     ∧ Scaffold.connectionOf (Some "pg") = "pgsql"
     ∧ Scaffold.connectionOf (Some "sqlite3") = "sqlite"
     ∧ Scaffold.connectionOf (Some "tedious") = "mssql"
     ∧ Scaffold.connectionOf (Some "oracledb") = "oracle")
  ∧ (∀ o output fs env,
       database o ≠ Some "skip" →
       fs !! Path.join [output; ".env"] = Some env →
       (Scaffold.connectionOf (database o) = "sqlite" →
        is_Some (fs !! Path.join [output; "config"; "database.imba"])) →
       ∃ fs',
         Scaffold.setDatabase o output fs = Some fs'
         ∧ JS.split newline <$> fs' !! Path.join [output; ".env"]
           = Some ((fun l => if JS.startsWith l "DB_CONNECTION"
                             then "DB_CONNECTION=" +:+ Scaffold.connectionOf (database o)
                             else l) <$> JS.split newline env)
         ∧ (Scaffold.connectionOf (database o) = "sqlite" →
            JS.split newline <$> fs' !! Path.join [output; "config"; "database.imba"]
            = (fun cfg =>
                 (fun l => if String.eqb (JS.trim l) "useNullAsDefault: null"
                           then String tab "useNullAsDefault: true"
                           else l) <$> JS.split newline cfg)
                <$> fs !! Path.join [output; "config"; "database.imba"])
         ∧ (Scaffold.connectionOf (database o) ≠ "sqlite" →
            fs' !! Path.join [output; "config"; "database.imba"]
            = fs !! Path.join [output; "config"; "database.imba"])
         ∧ ∀ p, p ≠ Path.join [output; ".env"] →
                p ≠ Path.join [output; "config"; "database.imba"] →
                fs' !! p = fs !! p)
  ∧ Scaffold.dbConnectionLine (Scaffold.connectionOf (Some "pg")) "DB_CONNECTION=sqlite"
    = "DB_CONNECTION=pgsql"
  ∧ Scaffold.nullAsDefaultLine (noBreakSpace +:+ "useNullAsDefault: null")
    = String tab "useNullAsDefault: true".
Proof.
  split; [| split; [by repeat split | split; [| by split]]].
  - intros o output fs Hdb. unfold Scaffold.setDatabase.
    by rewrite strictEq_decide, bool_decide_eq_true_2.
  - intros o output fs env Hdb Henv Hcfg.
    rewrite (setDatabase_unfold o output fs env) by done. cbv zeta.
    pose proof (env_not_database_config output) as Hne.
    destruct (String.eqb_spec (Scaffold.connectionOf (database o)) "sqlite") as [Hc | Hc].
    + destruct (Hcfg Hc) as [cfg Hcfg'].
      unfold updateLine. rewrite lookup_insert_ne, Hcfg' by done. cbn [mbind option_bind].
      eexists. split; [reflexivity |]. split; [| split; [| split]].
      * rewrite lookup_insert_ne, lookup_insert_eq by done. cbn [fmap option_fmap option_map].
        f_equal. apply lines_updateLineContent, dbConnectionLine_keepsLines.
      * intros _. rewrite lookup_insert_eq. cbn [fmap option_fmap option_map].
        f_equal. apply lines_updateLineContent, nullAsDefaultLine_keepsLines.
      * intros Hc'. by destruct Hc'.
      * intros p Hp1 Hp2. by rewrite !lookup_insert_ne.
    + eexists. split; [reflexivity |]. split; [| split; [| split]].
      * rewrite lookup_insert_eq. cbn [fmap option_fmap option_map].
        f_equal. apply lines_updateLineContent, dbConnectionLine_keepsLines.
      * intros Hc'. by destruct Hc.
      * intros _. by rewrite lookup_insert_ne.
      * intros p Hp1 Hp2. by rewrite lookup_insert_ne.
Qed.

(** With SQLite both files are rewritten: every DB_CONNECTION line of the
    environment file and the useNullAsDefault line of the configuration. *)
Lemma setDatabase_sqlite_sampleFiles :
  ∃ fs',
    Scaffold.setDatabase (answersWith (Some "sqlite3")) "/tmp/app" sampleFilesWithConfig
    = Some fs'
    ∧ JS.split newline <$> fs' !! "/tmp/app/.env"
      = Some ["APP_NAME=Formidable"; "CLIENT_URL=http://localhost:8000";
              "DB_CONNECTION=sqlite"; "DB_CONNECTION=sqlite"]
    ∧ JS.split newline <$> fs' !! "/tmp/app/config/database.imba"
      = Some ["export default {"; String tab "useNullAsDefault: true"; "}"].
Proof.
  destruct (proj1 (proj2 (proj2 setDatabase_rewrites_matching_lines))
              (answersWith (Some "sqlite3")) "/tmp/app" sampleFilesWithConfig sampleEnv)
    as (fs' & Hrun & Henv & Hsqlite & _).
  - discriminate.
  - reflexivity.
  - intros _. by eexists.
  - exists fs'. split; [exact Hrun |]. split; [exact Henv |]. exact (Hsqlite eq_refl).
Defined.

(** ** An unknown driver *)

(** C10: when the database is not skip and none of mysql, pg, sqlite3,
    tedious and oracledb, unset included, [setDatabase] runs all the same:
    every line of the environment file that starts with DB_CONNECTION
    becomes [DB_CONNECTION=], with nothing after the equals sign, the other
    lines stay, and the database configuration and every other file are as
    before. *)
Theorem setDatabase_unknown_driver
  (o : Onboarding) (output : string) (fs : Files) (env : string) :
  database o ∉ [Some "skip"; Some "mysql"; Some "pg"; Some "sqlite3"; Some "tedious";
                Some "oracledb"] →
  fs !! Path.join [output; ".env"] = Some env →
  ∃ fs',
    Scaffold.setDatabase o output fs = Some fs'
    ∧ JS.split newline <$> fs' !! Path.join [output; ".env"]
      = Some ((fun l => if JS.startsWith l "DB_CONNECTION" then "DB_CONNECTION=" else l)
                <$> JS.split newline env)
    ∧ fs' !! Path.join [output; "config"; "database.imba"]
      = fs !! Path.join [output; "config"; "database.imba"]
    ∧ ∀ p, p ≠ Path.join [output; ".env"] → fs' !! p = fs !! p.
Proof.
  intros Hdb Henv.
  assert (Hskip : database o ≠ Some "skip").
  { intros E. apply Hdb. rewrite E. apply list_elem_of_here. }
  assert (Hconn : Scaffold.connectionOf (database o) = "").
  { unfold Scaffold.connectionOf. destruct (database o) as [d|]; [| done].
    repeat (match goal with
            | |- context [String.eqb d ?s] =>
                destruct (String.eqb_spec d s) as [-> | _];
                [exfalso; apply Hdb;
                 repeat first [apply list_elem_of_here | apply list_elem_of_further] |]
            end).
    done. }
  rewrite (setDatabase_unfold o output fs env) by done. cbv zeta.
  pose proof (dbConnectionLine_keepsLines (database o)) as Hkeep.
  rewrite Hconn in *. change (String.eqb "" "sqlite") with false. cbv iota.
  eexists. split; [reflexivity |]. split; [| split].
  - rewrite lookup_insert_eq. cbn [fmap option_fmap option_map].
    f_equal. by apply lines_updateLineContent.
  - rewrite lookup_insert_ne; [done |]. apply env_not_database_config.
  - intros p Hp. by rewrite lookup_insert_ne.
Qed.

(** With no database chosen, both lines of the sample file that start with
    DB_CONNECTION lose their value. *)
Lemma setDatabase_unset_sampleFiles :
  ∃ fs',
    Scaffold.setDatabase (answersWith None) "/tmp/app" sampleFiles = Some fs'
    ∧ JS.split newline <$> fs' !! "/tmp/app/.env"
      = Some ["APP_NAME=Formidable"; "CLIENT_URL=http://localhost:8000";
              "DB_CONNECTION="; "DB_CONNECTION="].
Proof.
  assert (Hdb : database (answersWith None)
                ∉ [Some "skip"; Some "mysql"; Some "pg"; Some "sqlite3"; Some "tedious";
                   Some "oracledb"]).
  { intros H. repeat (apply elem_of_cons in H as [H | H]; [discriminate H |]).
    by apply elem_of_nil in H. }
  destruct (setDatabase_unknown_driver (answersWith None) "/tmp/app" sampleFiles sampleEnv
              Hdb sampleFiles_env) as (fs' & Hrun & Hlines & _).
  exists fs'. split; [exact Hrun |]. exact Hlines.
Defined.

(** ** The exit of the command *)

(** C5, as stated, fails: the name [.] holds a character outside the class,
    and in an empty directory with a successful scaffold the command runs
    all its steps and returns. *)
Lemma run_dot_in_empty_directory :
  New.hasForbiddenChar "." = true
  ∧ New.status (New.exit (New.run dotArgs emptyDirectory)) = 0
  ∧ ¬ (∀ a e,
         New.status (New.exit (New.run a e)) ≠ 0
         ↔ New.hasForbiddenChar (New.name a) = true
           ∨ (New.name a = "."
              ∧ New.existsSync e (New.application a e) = true
              ∧ New.isDirEmpty e (New.application a e) = false)
           ∨ New.isSuccessful e = false).
Proof.
  split; [reflexivity |]. split; [reflexivity |].
  intros H. destruct (H dotArgs emptyDirectory) as [_ Hback].
  apply Hback; [| reflexivity]. by left.
Qed.

(** C5, amended: the command ends with a status other than zero exactly
    when the name holds a character outside [a-z0-9-_], whatever the case of
    the letters, and is not the name [.]; or the name is [.] and the
    directory exists and is not empty; or the scaffold was not successful.
    In each of these a failure message is printed and no step of the chain
    runs; in the last one the message is that the scaffolding failed and the
    status is 1. *)
Theorem run_exit_status (a : New.Args) (e : New.Env) :
  (New.status (New.exit (New.run a e)) ≠ 0
   ↔ (New.hasForbiddenChar (New.name a) = true ∧ New.name a ≠ ".")
     ∨ (New.name a = "."
        ∧ New.existsSync e (New.application a e) = true
        ∧ New.isDirEmpty e (New.application a e) = false)
     ∨ New.isSuccessful e = false)
  ∧ (New.status (New.exit (New.run a e)) ≠ 0
     → New.failures (New.run a e) ≠ [] ∧ New.steps (New.run a e) = [])
  ∧ (New.exit (New.run a e) = New.Error "Invalid Application name."
     ↔ New.hasForbiddenChar (New.name a) = true ∧ New.name a ≠ ".")
  ∧ (New.exit (New.run a e) = New.Error "Application already exists!"
     ↔ New.name a = "."
       ∧ New.existsSync e (New.application a e) = true
       ∧ New.isDirEmpty e (New.application a e) = false)
  ∧ (New.exit (New.run a e) = New.ExitWith 1
     ↔ ¬ (New.hasForbiddenChar (New.name a) = true ∧ New.name a ≠ ".")
       ∧ ¬ (New.name a = "."
            ∧ New.existsSync e (New.application a e) = true
            ∧ New.isDirEmpty e (New.application a e) = false)
       ∧ New.isSuccessful e = false)
  ∧ (New.exit (New.run a e) = New.ExitWith 1
     → New.failures (New.run a e)
       = ["Scaffolding failed. It could be your network connection."]
       ∧ New.steps (New.run a e) = []).
Proof.
  unfold New.run.
  destruct (New.hasForbiddenChar (New.name a));
    destruct (String.eqb_spec (New.name a) ".") as [Hdot | Hdot];
    destruct (New.existsSync e (New.application a e));
    destruct (New.isDirEmpty e (New.application a e));
    destruct (New.isSuccessful e);
    cbn [andb negb New.exit New.status New.failures New.steps];
    repeat split; intros; try done; try tauto;
    try (intuition (done || congruence || lia)).
Qed.

(** * Further properties *)

(** ** The package name *)

Lemma hasForbiddenChar_cons (c : ascii) (s : string) :
  New.hasForbiddenChar (String c s) = negb (New.allowed c) || New.hasForbiddenChar s.
Proof. reflexivity. Qed.

Lemma replaceEvery_absent (c d : ascii) (s : string) :
  ¬ occurs c s → Chain.replaceEvery c d s = s.
Proof.
  unfold occurs. induction s as [|x s IH]; [done |]. simpl. intros Hno.
  destruct (Ascii.eqb_spec x c) as [-> | _]; [exfalso; apply Hno; by left |].
  rewrite IH; [done |]. intros Hin. apply Hno. by right.
Qed.

Lemma replaceEvery_removes (c d : ascii) (s : string) :
  c ≠ d → ¬ occurs c (Chain.replaceEvery c d s).
Proof.
  unfold occurs. intros Hcd. induction s as [|x s IH]; [by intros [] |].
  simpl. intros [Hx | Hin]; [| by apply IH].
  destruct (Ascii.eqb_spec x c) as [-> | Hne]; congruence.
Qed.

Lemma allowed_chars (c : ascii) (s : string) :
  New.hasForbiddenChar s = false → occurs c s → New.allowed c = true.
Proof.
  unfold occurs. induction s as [|x s IH]; [by intros _ [] |].
  rewrite hasForbiddenChar_cons. intros [Hx Hs]%orb_false_elim [<- | Hin].
  - by apply negb_false_iff.
  - by apply IH.
Qed.

(** X1: the name [setPackageName] writes has no space in it and the length
    of the application name; it is the application name itself when that
    has no space, and replacing again changes nothing. For a name other
    than [.] that the check of [New.run] lets through, the scaffold has
    that name and it is written as it is. For [.], which the check lets
    through as well, the scaffold has the base name of the working
    directory, which may hold spaces: in [/home/dev/my app] the command
    runs to its end and the name written is [my-app]. *)
Theorem packageName_no_space (appName : string) :
  ¬ occurs " "%char (Chain.packageName appName)
  ∧ String.length (Chain.packageName appName) = String.length appName
  ∧ (¬ occurs " "%char appName → Chain.packageName appName = appName)
  ∧ (∀ a e, accepted (New.name a) → New.name a ≠ "." →
            Cli.appName a e = New.name a
            ∧ Chain.packageName (Cli.appName a e) = New.name a)
  ∧ Chain.packageName (Chain.packageName appName) = Chain.packageName appName
  ∧ (accepted (New.name dotArgs)
     ∧ New.exit (New.run dotArgs spacedDirectory) = New.Finished
     ∧ Cli.appName dotArgs spacedDirectory = "my app"
     ∧ Chain.packageName (Cli.appName dotArgs spacedDirectory) = "my-app").
Proof.
  unfold Chain.packageName. split; [| split; [| split; [| split; [| split]]]].
  - by apply replaceEvery_removes.
  - induction appName as [|x s IH]; [done |]. simpl. by rewrite IH.
  - apply replaceEvery_absent.
  - intros a e Hok Hdot. unfold accepted in Hok. unfold Cli.appName.
    apply String.eqb_neq in Hdot. rewrite Hdot in *. cbn [negb] in Hok.
    rewrite andb_true_r in Hok. split; [done |].
    apply replaceEvery_absent. intros Hin.
    by pose proof (allowed_chars _ _ Hok Hin).
  - apply replaceEvery_absent. by apply replaceEvery_removes.
  - by repeat split.
Qed.

(** ** The application directory *)

Lemma join_output_alone (output : string) :
  output ≠ "" → Path.join [output; ""] = Path.normalize output.
Proof.
  intros Hne. unfold Path.join.
  rewrite filter_cons_True by done. rewrite filter_cons_False by (intros H; by apply H).
  rewrite filter_nil. reflexivity.
Qed.

Lemma absent_oneLine (sep : ascii) (s : string) : ¬ occurs sep s → oneLine sep s.
Proof.
  unfold occurs, oneLine. induction s as [|c s IH]; [done |]. simpl. intros Hno.
  destruct (Ascii.eqb_spec c sep) as [-> | _]; [exfalso; apply Hno; by left |].
  rewrite IH; [done |]. intros Hin. apply Hno. by right.
Qed.

Lemma accepted_plainSegment (name : string) :
  name ≠ "" → New.hasForbiddenChar name = false → plainSegment name.
Proof.
  intros Hne Hok. repeat split; [done | | |].
  - intros ->. discriminate Hok.
  - intros ->. discriminate Hok.
  - apply absent_oneLine. intros Hin. by pose proof (allowed_chars _ _ Hok Hin).
Qed.

Lemma join_snoc_split (sep : ascii) (ks : list string) (s pfx : string) :
  oneLine sep s → pfx = "" ∨ pfx = String sep "" →
  ∃ xs, JS.split sep (pfx +:+ JS.join sep (ks ++ [s])) = xs ++ [s].
Proof.
  intros Hs Hpfx. destruct ks as [|k ks].
  - destruct Hpfx as [-> | ->].
    + exists []. exact Hs.
    + exists [""]. change (String sep "" +:+ JS.join sep ([] ++ [s])) with ("" +:+ String sep s).
      by rewrite split_append, Hs.
  - rewrite join_snoc by done. rewrite <- append_assoc.
    rewrite split_append, Hs. by eexists.
Qed.

Lemma normalize_split_last (p : string) (xs : list string) (seg : string) :
  JS.split Path.slash p = xs ++ [seg] → plainSegment seg →
  ∃ ys, JS.split Path.slash (Path.normalize p) = ys ++ [seg].
Proof.
  intros Hsplit Hseg.
  assert (Hp : ∃ pre, p = pre +:+ seg).
  { rewrite <- (join_split Path.slash p), Hsplit. apply join_snoc_suffix. }
  destruct Hp as [pre0 Hp].
  pose proof Hseg as (Hne & Hd & Hdd & Hone).
  assert (Hslash : Path.endsWithSlash p = false).
  { rewrite endsWithSlash_lastChar, Hp, lastChar_append by done.
    apply bool_decide_eq_false_2, oneLine_lastChar, Hone. }
  unfold Path.normalize.
  destruct (String.eqb_spec p "") as [Hempty | _].
  { exfalso. rewrite Hp in Hempty. by apply (append_suffix_nonempty pre0 seg). }
  unfold Path.normalizeString. rewrite Hsplit, fold_left_app. simpl.
  rewrite pushSegment_plain by done. simpl. rewrite Hslash.
  set (kept := rev (fold_left (Path.pushSegment (negb (Path.isAbsolute p))) xs [])).
  destruct (join_snoc_suffix Path.slash kept seg) as [pre Hpre].
  destruct (String.eqb_spec (JS.join Path.slash (kept ++ [seg])) "") as [Hempty | _].
  { exfalso. rewrite Hpre in Hempty. by apply (append_suffix_nonempty pre seg). }
  rewrite append_nil_r. apply join_snoc_split; [exact Hone |].
  destruct (Path.isAbsolute p); [by right | by left].
Qed.

Lemma join_split_last (parts : list string) (seg : string) :
  plainSegment seg → ∃ ys, JS.split Path.slash (Path.join (parts ++ [seg])) = ys ++ [seg].
Proof.
  intros Hseg. pose proof Hseg as (Hne & _ & _ & Hone).
  unfold Path.join. rewrite filter_app, filter_cons_True, filter_nil by done.
  destruct (filter (λ p : string, p ≠ "") parts) as [|k ks] eqn:E.
  - simpl. apply (normalize_split_last seg []); [exact Hone | done].
  - change (∃ ys, JS.split Path.slash
                    (Path.normalize (JS.join Path.slash ((k :: ks) ++ [seg])))
                  = ys ++ [seg]).
    rewrite join_snoc by done.
    apply (normalize_split_last _ (JS.split Path.slash (JS.join Path.slash (k :: ks))));
      [| done].
    by rewrite split_append, Hone.
Qed.

Lemma basename_split_last (path : string) (ys : list string) (seg : string) :
  seg ≠ "" → JS.split Path.slash path = ys ++ [seg] → Cli.basename path = seg.
Proof.
  intros Hne Hsplit. unfold Cli.basename, Fs.segments.
  rewrite Hsplit, filter_app, filter_cons_True, filter_nil by done.
  apply last_last.
Qed.

(** X2: a name that is not empty and that the check of [New.run] lets
    through is [.] or one plain path segment: it is never [..] and holds no
    slash. For a name other than [.] the application directory ends in that
    very segment, whatever the working directory is, so its base name is
    the name, and the name handed to the scaffold is the name. For [.] the
    application directory is the working directory, normalized, and the
    scaffold is handed its base name: the last segment of the working
    directory when that is a plain segment. *)
Theorem application_keeps_name (a : New.Args) (e : New.Env) :
  New.name a ≠ "" →
  accepted (New.name a) →
  New.name a ≠ ".."
  ∧ ¬ occurs Path.slash (New.name a)
  ∧ (New.name a ≠ "." →
     (∃ before, JS.split Path.slash (New.application a e) = before ++ [New.name a])
     ∧ Cli.basename (New.application a e) = New.name a
     ∧ Cli.appName a e = New.name a)
  ∧ (New.name a = "." →
     New.application a e = Path.join [New.cwd e; ""]
     ∧ (New.cwd e ≠ "" → New.application a e = Path.normalize (New.cwd e))
     ∧ Cli.appName a e = Cli.basename (New.application a e)
     ∧ ∀ before seg,
         JS.split Path.slash (New.cwd e) = before ++ [seg] → plainSegment seg →
         Cli.appName a e = seg).
Proof.
  intros Hne Hok. unfold accepted in Hok.
  destruct (String.eqb_spec (New.name a) ".") as [Hdot | Hdot].
  - split; [by rewrite Hdot |]. split.
    { rewrite Hdot. unfold occurs. simpl. intuition discriminate. }
    split; [done |]. intros _.
    assert (Happ : New.application a e = Path.join [New.cwd e; ""]).
    { unfold New.application. by rewrite Hdot. }
    assert (Hname : Cli.appName a e = Cli.basename (New.application a e)).
    { unfold Cli.appName. by rewrite Hdot. }
    split; [exact Happ |]. split; [| split; [exact Hname |]].
    + intros Hcwd. rewrite Happ. by apply join_output_alone.
    + intros before seg Hsplit Hseg. rewrite Hname, Happ.
      assert (Hcwd : New.cwd e ≠ "").
      { intros Hempty. rewrite Hempty in Hsplit. destruct Hseg as (Hs & _).
        destruct before as [|x [|y before]]; simpl in Hsplit; congruence. }
      rewrite join_output_alone by done.
      destruct (normalize_split_last _ _ _ Hsplit Hseg) as [ys Hys].
      eapply basename_split_last; [| exact Hys]. apply Hseg.
  - cbn [negb] in Hok. rewrite andb_true_r in Hok.
    pose proof (accepted_plainSegment _ Hne Hok) as Hplain.
    pose proof Hplain as (_ & _ & Hdots & _).
    split; [done |]. split.
    { intros Hin. by pose proof (allowed_chars _ _ Hok Hin). }
    split; [| done]. intros _.
    assert (Happ : ∃ before,
               JS.split Path.slash (New.application a e) = before ++ [New.name a]).
    { unfold New.application. apply String.eqb_neq in Hdot. rewrite Hdot. cbn [negb].
      apply (join_split_last [New.cwd e]), Hplain. }
    split; [exact Happ |]. split.
    + destruct Happ as [before Hsplit]. by eapply basename_split_last.
    + unfold Cli.appName. apply String.eqb_neq in Hdot. by rewrite Hdot.
Qed.

(** The application [my-app] made in [/home/dev] is [/home/dev/my-app]; the
    application [.] made in [/home/dev/app] is called [app]. *)
Lemma application_keeps_name_myApp :
  New.application myApp devHome = "/home/dev/my-app"
  ∧ Cli.basename (New.application myApp devHome) = "my-app"
  ∧ Cli.appName dotArgs emptyDirectory = "app".
Proof.
  split; [reflexivity |]. split.
  - destruct (application_keeps_name myApp devHome ltac:(discriminate) eq_refl)
      as (_ & _ & Hname & _).
    by destruct (Hname ltac:(discriminate)) as (_ & Hbase & _).
  - destruct (application_keeps_name dotArgs emptyDirectory ltac:(discriminate) eq_refl)
      as (_ & _ & _ & Hdot).
    destruct (Hdot eq_refl) as (_ & _ & _ & Hseg).
    apply (Hseg [""; "home"; "dev"] "app"); [reflexivity |].
    repeat split; discriminate.
Defined.

(** ** Publishing, modifying and the stack *)

Lemma truthy_includes (s : string) :
  JS.truthy (Some s) && JS.includes ["react"; "vue"] s = JS.includes ["react"; "vue"] s.
Proof.
  unfold JS.truthy. destruct (String.eqb_spec s "") as [-> | _]; [reflexivity |].
  reflexivity.
Qed.

Lemma includes_stack (st : option string) :
  JS.includes ["react"; "vue"] (default "" st)
  = bool_decide (st = Some "react" ∨ st = Some "vue").
Proof.
  destruct st as [s|].
  - change (default "" (Some s)) with s.
    rewrite includes_react_vue. apply bool_decide_ext. naive_solver.
  - rewrite bool_decide_eq_false_2; [reflexivity |]. intros [?|?]; discriminate.
Qed.

Lemma publish_stack (st : option string) (output : string) :
  match st with
  | Some s =>
      if JS.truthy (Some s) && JS.includes ["react"; "vue"] s then
        [Chain.MakePublishable Chain.WebPublishable output;
         Chain.MakePublishable Chain.InertiaPublishable output]
      else []
  | None => []
  end
  = if bool_decide (st = Some "react" ∨ st = Some "vue") then
      [Chain.MakePublishable Chain.WebPublishable output;
       Chain.MakePublishable Chain.InertiaPublishable output]
    else [].
Proof.
  destruct st as [s|].
  - by rewrite truthy_includes, includes_react_vue.
  - rewrite bool_decide_eq_false_2; [done |]. intros [?|?]; discriminate.
Qed.

(** X3: [publish] logs a blank line and makes the two mail sets first, and
    after them one of four things: nothing, the web set, the SPA set, or the
    web set then the Inertia set. Nothing is added unless the type is
    full-stack; the scaffolding decides before the stack does, so the Inertia
    set is made only when the scaffolding is neither blank nor spa. *)
Theorem publish_sets (o : Onboarding) (output : string) :
  ∃ more,
    Chain.publish o output
    = [Chain.Log " "; Chain.MakePublishable Chain.AuthMailPublishable output;
       Chain.MakePublishable Chain.MailPublishable output]
      ++ ((fun p => Chain.MakePublishable p output) <$> more)
    ∧ more ∈ [[]; [Chain.WebPublishable]; [Chain.SPAPublishable];
              [Chain.WebPublishable; Chain.InertiaPublishable]]
    ∧ (type o ≠ Some "full-stack" → more = [])
    ∧ (more = [Chain.SPAPublishable]
       ↔ type o = Some "full-stack" ∧ scaffolding o = Some "spa")
    ∧ (more = [Chain.WebPublishable; Chain.InertiaPublishable]
       ↔ type o = Some "full-stack"
         ∧ scaffolding o ≠ Some "blank" ∧ scaffolding o ≠ Some "spa"
         ∧ (stack o = Some "react" ∨ stack o = Some "vue")).
Proof.
  exists (if bool_decide (type o = Some "full-stack") then
            if bool_decide (scaffolding o = Some "blank") then [Chain.WebPublishable]
            else if bool_decide (scaffolding o = Some "spa") then [Chain.SPAPublishable]
            else if bool_decide (stack o = Some "react" ∨ stack o = Some "vue")
                 then [Chain.WebPublishable; Chain.InertiaPublishable]
                 else []
          else []).
  unfold Chain.publish. rewrite !strictEq_decide.
  rewrite publish_stack.
  repeat case_bool_decide;
    (split; [reflexivity |]);
    (split; [repeat first [apply list_elem_of_here | apply list_elem_of_further] |]);
    repeat split; intros; try done; try congruence; try tauto;
    try (intuition congruence).
Qed.

Ltac in_list :=
  rewrite ?list_elem_of_In in *; simpl in *; intuition (try discriminate; try congruence).


Lemma hooks_run (o : Onboarding) (output : string) :
  Chain.hooks o output ≠ []
  ↔ type o = Some "full-stack"
    ∧ (JS.toLowerCase <$> stack o = Some "react" ∨ JS.toLowerCase <$> stack o = Some "vue").
Proof.
  unfold Chain.hooks. rewrite !strictEq_decide.
  destruct (stack o) as [s|]; cbn [JS.truthy fmap option_fmap option_map].
  - destruct (String.eqb_spec s "") as [-> | _]; cbn [negb andb].
    + rewrite andb_false_r. split; [done |]. intros [_ [H | H]]; discriminate H.
    + rewrite andb_true_r. repeat case_bool_decide; simpl; split; intros;
        try done; try tauto; try (intuition congruence).
  - rewrite andb_false_r. split; [done |]. intros [_ [H | H]]; discriminate H.
Qed.


(** X5: an application whose type is not full-stack gets nothing of the
    full-stack: the only dependency is the database driver, [install] runs
    no hook, [publish] makes the two mail sets alone, [modify] applies
    nothing, the client URL and the session files are not touched (the files
    need not even exist), and the closing lines do not mention the mix. *)
Theorem api_only_steps (o : Onboarding) (output : string) (fs : Files) :
  type o ≠ Some "full-stack" →
  Scaffold.getDependencies o = Resolver.driver o
  ∧ Chain.hooks o output = []
  ∧ Chain.publish o output
    = [Chain.Log " "; Chain.MakePublishable Chain.AuthMailPublishable output;
       Chain.MakePublishable Chain.MailPublishable output]
  ∧ Chain.modify o output = []
  ∧ Scaffold.commentOutClientUrl o output fs = Some fs
  ∧ Scaffold.setSession o output fs = Some fs
  ∧ ∀ a e,
      Cli.closing a e o
      = [Cli.Green (String newline "✅ Your application is ready!");
         Cli.Green ("👉 Get started with the following commands:" +:+ String newline "")]
        ++ (if negb (String.eqb (New.cwd e) (New.application a e))
            then [Cli.Grey ("$  cd " +:+ Cli.appName a e)] else [])
        ++ [Cli.Grey ("$  " +:+ Cli.shown (manager o) +:+ " start")].
Proof.
  intros Hty.
  assert (Hfull : JS.strictEq (type o) "full-stack" = false)
    by by rewrite strictEq_decide, bool_decide_eq_false_2.
  split; [| split; [| split; [| split; [| split; [| split]]]]].
  - unfold Scaffold.getDependencies, Resolver.driver. rewrite Hfull.
    destruct (database o) as [d|]; [| done]. unfold JS.truthy.
    destruct (String.eqb_spec d ""), (String.eqb_spec d "skip");
      cbn [negb andb]; case_bool_decide; first [done | exfalso; tauto].
  - unfold Chain.hooks. by rewrite Hfull.
  - unfold Chain.publish. by rewrite Hfull.
  - unfold Chain.modify. by rewrite Hfull.
  - unfold Scaffold.commentOutClientUrl. by rewrite Hfull.
  - unfold Scaffold.setSession. by rewrite Hfull.
  - intros a e. unfold Cli.closing. by rewrite Hfull.
Qed.

(** An API application with PostgreSQL: [pg] is the one dependency. *)
Lemma api_only_steps_pg :
  Scaffold.getDependencies (answersWith (Some "pg")) = ["pg"]
  ∧ Chain.modify (answersWith (Some "pg")) "/tmp/app" = [].
Proof.
  destruct (api_only_steps (answersWith (Some "pg")) "/tmp/app" sampleFiles)
    as (Hdeps & _ & _ & Hmod & _); [discriminate |].
  split; [exact Hdeps | exact Hmod].
Defined.

(** X13: the closing lines end with the start command and advise the
    install and the mix exactly when [install] ran a stack hook: both compare
    the stack in lower case. The line before them, the change of directory,
    is there exactly when the application is not the working directory. *)
Theorem closing_mentions_mix_with_hook
  (a : New.Args) (e : New.Env) (o : Onboarding) (output : string) :
  Cli.closing a e o
  = [Cli.Green (String newline "✅ Your application is ready!");
     Cli.Green ("👉 Get started with the following commands:" +:+ String newline "")]
    ++ (if bool_decide (New.cwd e = New.application a e) then []
        else [Cli.Grey ("$  cd " +:+ Cli.appName a e)])
    ++ (if bool_decide (Chain.hooks o output ≠ [])
        then [Cli.Grey ("$  " +:+ Cli.shown (manager o) +:+ " install");
              Cli.Grey ("$  " +:+ Cli.shown (manager o) +:+ " run mix:dev")]
        else [])
    ++ [Cli.Grey ("$  " +:+ Cli.shown (manager o) +:+ " start")].
Proof.
  unfold Cli.closing.
  assert (Hcd : negb (String.eqb (New.cwd e) (New.application a e))
                = negb (bool_decide (New.cwd e = New.application a e))).
  { destruct (String.eqb_spec (New.cwd e) (New.application a e)).
    - by rewrite bool_decide_eq_true_2.
    - by rewrite bool_decide_eq_false_2. }
  assert (Hmix : JS.strictEq (type o) "full-stack"
                 && JS.includes ["react"; "vue"] (default "" (JS.toLowerCase <$> stack o))
                 = bool_decide (Chain.hooks o output ≠ [])).
  { rewrite strictEq_decide, includes_stack.
    rewrite (bool_decide_ext _ _ (hooks_run o output)).
    repeat case_bool_decide; cbn [andb]; first [done | exfalso; tauto]. }
  rewrite Hcd, Hmix. by destruct (bool_decide (New.cwd e = New.application a e)).
Qed.

(** ** More on fetch and extract *)

(** X6: when the download does not resolve to [true], [make] ends at once:
    the archive is not opened, no directory is created and no file written,
    [success] is assigned [false] and [busy] is back to [false]. *)
Theorem make_failed_download (w : Scaffold.World) (output : string) :
  Scaffold.response w = false →
  Scaffold.make w output
  = {| Scaffold.completed := true;
       Scaffold.final := {| Scaffold.success := false; Scaffold.busy := false |};
       Scaffold.trace :=
         [Scaffold.SetBusy true; Scaffold.Download Scaffold.url (Scaffold.skeleton w);
          Scaffold.SetBusy false; Scaffold.SetSuccess false] |}.
Proof. intros Hresp. rewrite make_outcome, Hresp. reflexivity. Qed.

(** Without a network nothing of the sample archive reaches the disk. *)
Lemma make_failed_download_offline :
  Scaffold.trace (Scaffold.make offlineWorld "/tmp/app")
  = [Scaffold.SetBusy true;
     Scaffold.Download Scaffold.url "/tmp/formidablejs-master.zip";
     Scaffold.SetBusy false; Scaffold.SetSuccess false].
Proof.
  exact (f_equal Scaffold.trace (make_failed_download offlineWorld "/tmp/app" eq_refl)).
Defined.

Lemma extractEntry_effects (w : Scaffold.World) (output : string) (e : Entry.t)
  (st : Scaffold.State) :
  effects (Scaffold.extractEntry w output e st)
  = if String.eqb (Entry.type e) "Directory" then [Scaffold.Mkdir (destination output e) true]
    else if String.eqb (Scaffold.baseName (Entry.path e)) "package-lock.json" then []
         else [Scaffold.WriteStream (destination output e)].
Proof.
  unfold Scaffold.extractEntry, destination, Scaffold.mkdirSync, effects, mbind,
    Scaffold.Act_bind, Scaffold.emit.
  destruct (String.eqb (Entry.type e) "Directory").
  - by destruct (Scaffold.mkdirThrows w _).
  - by destruct (String.eqb _ "package-lock.json").
Qed.

Lemma extractEntry_returned (w : Scaffold.World) (output : string) (e : Entry.t)
  (st : Scaffold.State) :
  returned (Scaffold.extractEntry w output e st)
  = negb (String.eqb (Entry.type e) "Directory"
          && Scaffold.mkdirThrows w (destination output e)).
Proof.
  unfold Scaffold.extractEntry, destination, Scaffold.mkdirSync, returned, mbind,
    Scaffold.Act_bind, Scaffold.emit.
  destruct (String.eqb (Entry.type e) "Directory").
  - by destruct (Scaffold.mkdirThrows w _).
  - by destruct (String.eqb _ "package-lock.json").
Qed.

Lemma forEach_cons (w : Scaffold.World) (output : string) (e : Entry.t)
  (es : list Entry.t) (st : Scaffold.State) :
  effects (Scaffold.forEach (Scaffold.extractEntry w output) (e :: es) st)
  = effects (Scaffold.extractEntry w output e st)
    ++ (if returned (Scaffold.extractEntry w output e st)
        then effects (Scaffold.forEach (Scaffold.extractEntry w output) es st) else [])
  ∧ returned (Scaffold.forEach (Scaffold.extractEntry w output) (e :: es) st)
    = returned (Scaffold.extractEntry w output e st)
      && returned (Scaffold.forEach (Scaffold.extractEntry w output) es st).
Proof.
  simpl. unfold mbind, Scaffold.Act_bind.
  destruct (extractEntry_keeps_state w output e st) as [Hst _].
  destruct (Scaffold.extractEntry w output e st) as [[c st'] log].
  unfold stateOf in Hst. simpl in Hst. subst st'.
  destruct c as [[]|]; unfold effects, returned; simpl.
  - by destruct (Scaffold.forEach (Scaffold.extractEntry w output) es st) as [[c' st'] log'].
  - by rewrite app_nil_r.
Qed.

Lemma forEach_stops (w : Scaffold.World) (output : string) (pre : list Entry.t)
  (e : Entry.t) (post : list Entry.t) (st : Scaffold.State) :
  returned (Scaffold.forEach (Scaffold.extractEntry w output) pre st) = true →
  returned (Scaffold.extractEntry w output e st) = false →
  effects (Scaffold.forEach (Scaffold.extractEntry w output) (pre ++ e :: post) st)
  = effects (Scaffold.forEach (Scaffold.extractEntry w output) pre st)
    ++ effects (Scaffold.extractEntry w output e st)
  ∧ returned (Scaffold.forEach (Scaffold.extractEntry w output) (pre ++ e :: post) st)
    = false.
Proof.
  intros Hpre He. induction pre as [|x pre IH].
  - cbn [app]. destruct (forEach_cons w output e post st) as [-> ->].
    rewrite He. split; [| done]. unfold effects at 3. simpl. by rewrite app_nil_r.
  - change ((x :: pre) ++ e :: post) with (x :: (pre ++ e :: post)).
    destruct (forEach_cons w output x (pre ++ e :: post) st) as [-> ->].
    destruct (forEach_cons w output x pre st) as [Heff Hret].
    rewrite Hret in Hpre. apply andb_true_iff in Hpre as [Hx Hpre].
    rewrite Heff, Hx. destruct (IH Hpre) as [-> ->].
    split; [by rewrite app_assoc | done].
Qed.

Lemma streamErrors_app (w : Scaffold.World) (l1 l2 : list Scaffold.Effect) :
  Scaffold.streamErrors w (l1 ++ l2)
  = Scaffold.streamErrors w l1 ++ Scaffold.streamErrors w l2.
Proof. apply omap_app. Qed.

(** X7: a directory that cannot be created ends the extraction. When
    [mkdirSync] throws on an entry and did not on the entries before it,
    nothing is done for the entries after it: the effects are those of the
    entries before, then the failed creation, then only the reports of the
    streams opened before; [success] is never assigned and stays [false],
    while [busy] is [false] all the same. *)
Theorem make_stops_at_failed_directory
  (w : Scaffold.World) (output : string) (pre : list Entry.t) (e : Entry.t)
  (post : list Entry.t) :
  Scaffold.response w = true →
  Scaffold.archive w = Some (pre ++ e :: post) →
  returned (Scaffold.forEach (Scaffold.extractEntry w output) pre Scaffold.initial) = true →
  Entry.type e = "Directory" →
  Scaffold.mkdirThrows w (destination output e) = true →
  Scaffold.completed (Scaffold.make w output) = false
  ∧ Scaffold.final (Scaffold.make w output)
    = {| Scaffold.success := false; Scaffold.busy := false |}
  ∧ Scaffold.trace (Scaffold.make w output)
    = [Scaffold.SetBusy true; Scaffold.Download Scaffold.url (Scaffold.skeleton w);
       Scaffold.SetBusy false; Scaffold.OpenArchive (Scaffold.skeleton w)]
      ++ effects (Scaffold.forEach (Scaffold.extractEntry w output) pre Scaffold.initial)
      ++ [Scaffold.Mkdir (destination output e) true]
      ++ Scaffold.streamErrors w
           (effects (Scaffold.forEach (Scaffold.extractEntry w output) pre
                       Scaffold.initial)).
Proof.
  intros Hresp Harch Hpre Hty Hthrow.
  assert (He : returned (Scaffold.extractEntry w output e Scaffold.initial) = false).
  { by rewrite extractEntry_returned, Hty, Hthrow. }
  destruct (forEach_stops w output pre e post Scaffold.initial Hpre He) as [Heff Hret].
  rewrite extractEntry_effects, Hty in Heff. cbn [String.eqb] in Heff.
  change (String.eqb "Directory" "Directory") with true in Heff. cbv iota in Heff.
  rewrite make_outcome, Hresp, Harch. cbn [negb]. cbv zeta.
  cbn [Scaffold.completed Scaffold.final Scaffold.trace].
  rewrite Hret, Heff. split; [done |]. split; [done |].
  rewrite !streamErrors_app. simpl. rewrite !app_nil_r.
  by rewrite <- !app_assoc.
Qed.

(** In the sample archive the second directory cannot be created: the file
    under it and the lock file are never looked at. *)
Lemma make_stops_at_failed_directory_sample :
  Scaffold.trace (Scaffold.make blockedWorld "/tmp/app")
  = [Scaffold.SetBusy true;
     Scaffold.Download Scaffold.url "/tmp/formidablejs-master.zip";
     Scaffold.SetBusy false; Scaffold.OpenArchive "/tmp/formidablejs-master.zip";
     Scaffold.Mkdir "/tmp/app" true; Scaffold.Mkdir "/tmp/app/config/" true].
Proof.
  exact (proj2 (proj2 (make_stops_at_failed_directory blockedWorld "/tmp/app"
                         [ {| Entry.path := "repo-main/"; Entry.type := "Directory" |} ]
                         {| Entry.path := "repo-main/config/"; Entry.type := "Directory" |}
                         [ {| Entry.path := "repo-main/config/app.json";
                              Entry.type := "File" |};
                           {| Entry.path := "repo-main/package-lock.json";
                              Entry.type := "File" |} ]
                         eq_refl eq_refl eq_refl eq_refl eq_refl))).
Defined.

Lemma forEach_effects_from (w : Scaffold.World) (output : string) (es : list Entry.t)
  (st : Scaffold.State) (x : Scaffold.Effect) :
  x ∈ effects (Scaffold.forEach (Scaffold.extractEntry w output) es st) →
  ∃ e, e ∈ es ∧ x ∈ effects (Scaffold.extractEntry w output e st).
Proof.
  induction es as [|e es IH].
  - intros Hin. by apply elem_of_nil in Hin.
  - destruct (forEach_cons w output e es st) as [-> _].
    intros [Hin | Hin]%elem_of_app.
    + exists e. split; [apply list_elem_of_here | done].
    + destruct (returned _); [| by apply elem_of_nil in Hin].
      destruct (IH Hin) as (e' & He' & Hx). exists e'.
      split; [by apply list_elem_of_further | done].
Qed.

Lemma make_file_effect (w : Scaffold.World) (output : string) (x : Scaffold.Effect) :
  fileEffect x → x ∈ Scaffold.trace (Scaffold.make w output) →
  Scaffold.response w = true
  ∧ ∃ es e, Scaffold.archive w = Some es ∧ e ∈ es
            ∧ x ∈ effects (Scaffold.extractEntry w output e Scaffold.initial).
Proof.
  intros Hx Hin. rewrite make_outcome in Hin.
  destruct (Scaffold.response w); cbn [negb] in Hin.
  - split; [done |]. destruct (Scaffold.archive w) as [es|].
    + cbv zeta in Hin. cbn [Scaffold.trace] in Hin.
      apply elem_of_app in Hin as [Hin | Hin].
      * repeat (apply elem_of_cons in Hin as [-> | Hin]; [by destruct Hx |]).
        apply elem_of_app in Hin as [Hin | Hin].
        -- destruct (forEach_effects_from _ _ _ _ _ Hin) as (e & He & Hxe).
           by exists es, e.
        -- destruct (returned _); [| by apply elem_of_nil in Hin].
           apply list_elem_of_singleton in Hin. subst x. by destruct Hx.
      * apply streamErrors_only in Hin as [msg ->]. by destruct Hx.
    + cbn [Scaffold.trace] in Hin.
      repeat (apply elem_of_cons in Hin as [-> | Hin]; [by destruct Hx |]).
      by apply elem_of_nil in Hin.
  - cbn [Scaffold.trace] in Hin.
    repeat (apply elem_of_cons in Hin as [-> | Hin]; [by destruct Hx |]).
    by apply elem_of_nil in Hin.
Qed.

(** X8: [make] touches the disk only for entries of the archive. Every file
    stream it opens is for an entry that is not a directory and whose base
    name is not package-lock.json, at the destination of that entry; every
    directory it creates is for a directory entry, at its destination, and
    with the recursive option; every error it reports comes from a stream it
    opened. So the lock file of the archive is never written, and without a
    download that resolved to [true] nothing is. *)
Theorem make_touches_only_entries (w : Scaffold.World) (output : string) :
  (∀ file, Scaffold.WriteStream file ∈ Scaffold.trace (Scaffold.make w output) →
     Scaffold.response w = true
     ∧ ∃ es e, Scaffold.archive w = Some es ∧ e ∈ es
               ∧ Entry.type e ≠ "Directory"
               ∧ Scaffold.baseName (Entry.path e) ≠ "package-lock.json"
               ∧ file = destination output e)
  ∧ (∀ dir recursive,
       Scaffold.Mkdir dir recursive ∈ Scaffold.trace (Scaffold.make w output) →
       recursive = true
       ∧ Scaffold.response w = true
       ∧ ∃ es e, Scaffold.archive w = Some es ∧ e ∈ es
                 ∧ Entry.type e = "Directory" ∧ dir = destination output e)
  ∧ (∀ msg, Scaffold.CommandError msg ∈ Scaffold.trace (Scaffold.make w output) →
       ∃ file, Scaffold.WriteStream file ∈ Scaffold.trace (Scaffold.make w output)
               ∧ Scaffold.writeErrors w file = true).
Proof.
  split; [| split].
  - intros file Hin.
    destruct (make_file_effect w output (Scaffold.WriteStream file) I Hin) as (Hresp & es & e & Harch & He & Hx).
    split; [done |]. exists es, e. rewrite extractEntry_effects in Hx.
    destruct (String.eqb_spec (Entry.type e) "Directory") as [Hty | Hty].
    { apply list_elem_of_singleton in Hx. discriminate Hx. }
    destruct (String.eqb_spec (Scaffold.baseName (Entry.path e)) "package-lock.json")
      as [Hb | Hb]; [by apply elem_of_nil in Hx |].
    apply list_elem_of_singleton in Hx. injection Hx as ->. done.
  - intros dir recursive Hin.
    destruct (make_file_effect w output (Scaffold.Mkdir dir recursive) I Hin) as (Hresp & es & e & Harch & He & Hx).
    rewrite extractEntry_effects in Hx.
    destruct (String.eqb_spec (Entry.type e) "Directory") as [Hty | Hty].
    + apply list_elem_of_singleton in Hx. injection Hx as -> ->.
      split; [done |]. split; [done |]. by exists es, e.
    + destruct (String.eqb (Scaffold.baseName (Entry.path e)) "package-lock.json");
        [by apply elem_of_nil in Hx |].
      apply list_elem_of_singleton in Hx. discriminate Hx.
  - intros msg Hin.
    assert (Hlate : ∀ log, Scaffold.CommandError msg ∈ Scaffold.streamErrors w log
                    → ∃ file, Scaffold.WriteStream file ∈ log
                              ∧ Scaffold.writeErrors w file = true).
    { intros log. unfold Scaffold.streamErrors. intros (x & Hx & Hsome)%list_elem_of_omap.
      destruct x; try discriminate Hsome.
      destruct (Scaffold.writeErrors w file) eqn:Herr; [| discriminate Hsome].
      by exists file. }
    rewrite make_outcome in *.
    destruct (Scaffold.response w); cbn [negb] in *.
    + destruct (Scaffold.archive w) as [es|].
      * cbv zeta in *. cbn [Scaffold.trace] in *.
        destruct (forEach_keeps_state w output es Scaffold.initial) as [_ Hlog].
        apply elem_of_app in Hin as [Hin | Hin].
        -- exfalso.
           repeat (apply elem_of_cons in Hin as [Hin | Hin]; [discriminate Hin |]).
           apply elem_of_app in Hin as [Hin | Hin].
           ++ rewrite Forall_forall in Hlog. by apply Hlog in Hin.
           ++ destruct (returned _); [| by apply elem_of_nil in Hin].
              apply list_elem_of_singleton in Hin. discriminate Hin.
        -- destruct (Hlate _ Hin) as (file & Hfile & Herr).
           exists file. split; [by apply elem_of_app; left | done].
      * exfalso. cbn [Scaffold.trace] in Hin.
        repeat (apply elem_of_cons in Hin as [Hin | Hin]; [discriminate Hin |]).
        by apply elem_of_nil in Hin.
    + exfalso. cbn [Scaffold.trace] in Hin.
      repeat (apply elem_of_cons in Hin as [Hin | Hin]; [discriminate Hin |]).
      by apply elem_of_nil in Hin.
Qed.

(** X14: an entry that is not a directory and whose path has no slash, a
    file at the top of an archive without a wrapping folder, loses its whole
    path with the first segment: unless it is the lock file it is streamed
    to the output directory itself, not to a file inside it. *)
Theorem extractEntry_without_folder
  (w : Scaffold.World) (output root ty : string) (st : Scaffold.State) :
  output ≠ "" →
  ¬ occurs Path.slash root →
  ty ≠ "Directory" →
  root ≠ "package-lock.json" →
  effects (Scaffold.extractEntry w output {| Entry.path := root; Entry.type := ty |} st)
  = [Scaffold.WriteStream (Path.normalize output)].
Proof.
  intros Hout Hroot Hty Hlock. apply absent_oneLine in Hroot.
  rewrite extractEntry_effects. cbn [Entry.path Entry.type]. unfold destination.
  cbn [Entry.path]. rewrite relativePath_one_segment, baseName_one_segment by done.
  apply String.eqb_neq in Hty, Hlock. rewrite Hty, Hlock.
  by rewrite join_output_alone.
Qed.

(** A read-me at the top of the archive is streamed onto [/tmp/app]. *)
Lemma extractEntry_without_folder_readme :
  effects (Scaffold.extractEntry quietWorld "/tmp/app"
             {| Entry.path := "README.md"; Entry.type := "File" |} Scaffold.initial)
  = [Scaffold.WriteStream "/tmp/app"].
Proof.
  apply (extractEntry_without_folder quietWorld "/tmp/app" "README.md" "File");
    try discriminate.
  unfold occurs. simpl. intuition discriminate.
Defined.

(** ** Every entry of the archive *)

Lemma eqb_decide (a b : string) : String.eqb a b = bool_decide (a = b).
Proof.
  destruct (String.eqb_spec a b).
  - by rewrite bool_decide_eq_true_2.
  - by rewrite bool_decide_eq_false_2.
Qed.

Lemma extractEntry_entryEffects (w : Scaffold.World) (output : string) (e : Entry.t)
  (st : Scaffold.State) :
  effects (Scaffold.extractEntry w output e st) = entryEffects output e.
Proof. rewrite extractEntry_effects. unfold entryEffects. by rewrite !eqb_decide. Qed.

Lemma unhindered_cons (w : Scaffold.World) (output : string) (e : Entry.t)
  (es : list Entry.t) (st : Scaffold.State) :
  unhindered w output (e :: es)
  ↔ returned (Scaffold.extractEntry w output e st) = true ∧ unhindered w output es.
Proof.
  rewrite extractEntry_returned, eqb_decide. unfold unhindered. split.
  - intros H. split.
    + case_bool_decide as Hty; [| done].
      by rewrite (H e (list_elem_of_here _ _) Hty).
    + intros x Hx. apply H. by apply list_elem_of_further.
  - intros [He Hes] x Hx Hty.
    apply elem_of_cons in Hx as [Hx | Hx]; [subst x | by apply Hes].
    rewrite bool_decide_eq_true_2 in He by done.
    by destruct (Scaffold.mkdirThrows w (destination output e)).
Qed.

(** The callback returns on every entry exactly when no creation throws. *)
Lemma forEach_returned (w : Scaffold.World) (output : string) (es : list Entry.t)
  (st : Scaffold.State) :
  returned (Scaffold.forEach (Scaffold.extractEntry w output) es st) = true
  ↔ unhindered w output es.
Proof.
  induction es as [|e es IH].
  - split; [| done]. intros _ x Hx. by apply elem_of_nil in Hx.
  - destruct (forEach_cons w output e es st) as [_ ->].
    rewrite andb_true_iff, IH. symmetry. apply unhindered_cons.
Qed.

(** Entries on which no creation throws are all handled, in order. *)
Lemma forEach_unhindered (w : Scaffold.World) (output : string) (pre rest : list Entry.t)
  (st : Scaffold.State) :
  unhindered w output pre →
  effects (Scaffold.forEach (Scaffold.extractEntry w output) (pre ++ rest) st)
  = (pre ≫= entryEffects output)
    ++ effects (Scaffold.forEach (Scaffold.extractEntry w output) rest st)
  ∧ returned (Scaffold.forEach (Scaffold.extractEntry w output) (pre ++ rest) st)
    = returned (Scaffold.forEach (Scaffold.extractEntry w output) rest st).
Proof.
  induction pre as [|e pre IH]; intros Hpre; [done |].
  apply (unhindered_cons w output e pre st) in Hpre as [He Hpre].
  change ((e :: pre) ++ rest) with (e :: (pre ++ rest)).
  destruct (forEach_cons w output e (pre ++ rest) st) as [-> ->].
  destruct (IH Hpre) as [-> ->].
  rewrite He, extractEntry_entryEffects, bind_cons. cbn [andb].
  by rewrite app_assoc.
Qed.

Lemma streamErrors_opening (w : Scaffold.World) : Scaffold.streamErrors w (opening w) = [].
Proof. reflexivity. Qed.

(** The trace of a run whose download resolved to [true], along the entries
    on which no creation throws. *)
Lemma make_trace_entries (w : Scaffold.World) (output : string) (pre rest : list Entry.t) :
  Scaffold.response w = true →
  Scaffold.archive w = Some (pre ++ rest) →
  unhindered w output pre →
  Scaffold.trace (Scaffold.make w output)
  = opening w ++ (pre ≫= entryEffects output)
    ++ (effects (Scaffold.forEach (Scaffold.extractEntry w output) rest Scaffold.initial)
        ++ (if returned (Scaffold.forEach (Scaffold.extractEntry w output) rest
                           Scaffold.initial)
            then [Scaffold.SetSuccess true] else []))
    ++ Scaffold.streamErrors w
         ((pre ≫= entryEffects output)
          ++ effects (Scaffold.forEach (Scaffold.extractEntry w output) rest
                        Scaffold.initial)).
Proof.
  intros Hresp Harch Hpre.
  rewrite make_outcome, Hresp, Harch. cbn [negb]. cbv zeta. cbn [Scaffold.trace].
  destruct (forEach_unhindered w output pre rest Scaffold.initial Hpre) as [-> ->].
  change ([Scaffold.SetBusy true; Scaffold.Download Scaffold.url (Scaffold.skeleton w);
           Scaffold.SetBusy false]
          ++ [Scaffold.OpenArchive (Scaffold.skeleton w)] ++ ?l) with (opening w ++ l).
  set (shown := pre ≫= entryEffects output).
  set (r := Scaffold.forEach (Scaffold.extractEntry w output) rest Scaffold.initial).
  rewrite !streamErrors_app, streamErrors_opening.
  assert (Hlast : Scaffold.streamErrors w
                    (if returned r then [Scaffold.SetSuccess true] else []) = [])
    by by destruct (returned r).
  rewrite Hlast, app_nil_r. cbn [app]. by rewrite <- !app_assoc.
Qed.

Lemma entryEffects_in (output : string) (es : list Entry.t) (x : Scaffold.Effect) :
  x ∈ es ≫= entryEffects output ↔ ∃ e, e ∈ es ∧ x ∈ entryEffects output e.
Proof.
  rewrite list_elem_of_bind. split; intros (e & H1 & H2); by exists e.
Qed.

Lemma entryEffects_mkdir (output : string) (e : Entry.t) (dir : string) (recursive : bool) :
  Scaffold.Mkdir dir recursive ∈ entryEffects output e
  ↔ Entry.type e = "Directory" ∧ dir = destination output e ∧ recursive = true.
Proof.
  unfold entryEffects. case_bool_decide as Hty.
  - rewrite list_elem_of_singleton. split.
    + by intros [= -> ->].
    + by intros (_ & -> & ->).
  - split; [| by intros [? _]]. case_bool_decide.
    + by intros ?%elem_of_nil.
    + intros Hin%list_elem_of_singleton. discriminate Hin.
Qed.

(** ** Directories on the disk *)

Example mkdirSync_creates_ancestors :
  Fs.mkdirSync "/tmp/app/config/" true emptyDisk
  = Some {| Fs.dirs := {[ "/tmp"; "/tmp/app"; "/tmp/app/config" ]}; Fs.files := ∅ |}.
Proof. vm_compute. reflexivity. Qed.

Example mkdirSync_not_a_directory :
  Fs.mkdirSync "/tmp/app/config/views/" true configIsFile = None
  ∧ Fs.mkdirSync "/tmp/app/config" true configIsFile = None
  ∧ Fs.mkdirSync "/tmp/app/public" false configIsFile
    = Some {| Fs.dirs := {[ "/tmp"; "/tmp/app" ]} ∪ {[ "/tmp/app/public" ]};
              Fs.files := {[ "/tmp/app/config" ]} |}
  ∧ Fs.mkdirSync "/tmp/app" false configIsFile = None
  ∧ Fs.mkdirSync "/tmp/app/a/b" false configIsFile = None
  ∧ is_Some (Fs.mkdirSync "/srv" false configIsFile).
Proof. do 5 (split; [vm_compute; reflexivity |]). by eexists. Qed.

Lemma blocked_files (path : string) (d1 d2 : Fs.Disk) :
  Fs.files d1 = Fs.files d2 → Fs.blocked path d1 = Fs.blocked path d2.
Proof. unfold Fs.blocked. by intros ->. Qed.

Lemma mkdirSync_recursive (path : string) (disk : Fs.Disk) :
  Fs.mkdirSync path true disk
  = if Fs.blocked path disk then None
    else Some {| Fs.dirs := Fs.dirs disk ∪ list_to_set (Fs.ancestors path);
                 Fs.files := Fs.files disk |}.
Proof. reflexivity. Qed.

Lemma created_elem (log : list Scaffold.Effect) (dir : string) (recursive : bool)
  (a : string) :
  Scaffold.Mkdir dir recursive ∈ log → a ∈ Fs.ancestors dir → a ∈ created log.
Proof.
  intros Hin Ha. induction log as [|x log IH]; [by apply elem_of_nil in Hin |].
  apply elem_of_cons in Hin as [<- | Hin].
  - cbn [created]. apply elem_of_union_l. by apply elem_of_list_to_set.
  - destruct x; cbn [created]; try by apply IH.
    apply elem_of_union_r. by apply IH.
Qed.

(** Recursive creations that no file blocks all succeed, and add the
    directories they name with their ancestors. *)
Lemma directoriesAfter_recursive (log : list Scaffold.Effect) (disk : Fs.Disk) :
  (∀ dir recursive, Scaffold.Mkdir dir recursive ∈ log →
                    recursive = true ∧ Fs.blocked dir disk = false) →
  directoriesAfter log disk
  = Some {| Fs.dirs := Fs.dirs disk ∪ created log; Fs.files := Fs.files disk |}.
Proof.
  revert disk. induction log as [|x log IH]; intros disk H.
  - cbn [directoriesAfter created]. destruct disk as [ds fs]. cbn [Fs.dirs Fs.files].
    by rewrite (right_id_L ∅ (∪)).
  - assert (Hrest : ∀ dir recursive, Scaffold.Mkdir dir recursive ∈ log →
                      recursive = true ∧ Fs.blocked dir disk = false)
      by (intros dir recursive Hin; apply H; by apply list_elem_of_further).
    destruct x; cbn [directoriesAfter created]; try by apply IH.
    destruct (H dir recursive (list_elem_of_here _ _)) as [-> Hfree].
    rewrite mkdirSync_recursive, Hfree. cbn [mbind option_bind].
    rewrite IH.
    + cbn [Fs.dirs Fs.files]. by rewrite (assoc_L (∪)).
    + intros dir' recursive' Hin. destruct (Hrest dir' recursive' Hin) as [-> Hfree'].
      split; [done |]. by rewrite <- Hfree'.
Qed.

Lemma onDisk_diskWorld (disk : Fs.Disk) : onDisk (diskWorld disk) disk.
Proof.
  intros dir. cbn [diskWorld Scaffold.mkdirThrows]. rewrite mkdirSync_recursive.
  by destruct (Fs.blocked dir disk).
Qed.

(** On a disk where [/tmp/app/config] is a regular file the creation of the
    second directory of the sample archive throws: nothing after it is
    done and [success] stays [false]. *)
Example make_on_configIsFile :
  Scaffold.trace (Scaffold.make (diskWorld configIsFile) "/tmp/app")
  = opening (diskWorld configIsFile)
    ++ [Scaffold.Mkdir "/tmp/app" true; Scaffold.Mkdir "/tmp/app/config/" true]
  ∧ Scaffold.final (Scaffold.make (diskWorld configIsFile) "/tmp/app")
    = {| Scaffold.success := false; Scaffold.busy := false |}
  ∧ directoriesAfter (Scaffold.trace (Scaffold.make (diskWorld configIsFile) "/tmp/app"))
      configIsFile
    = None.
Proof. vm_compute. by repeat split. Qed.

Lemma onDisk_quiet : onDisk quietWorld emptyDisk.
Proof.
  intros dir. split; [discriminate |].
  rewrite mkdirSync_recursive.
  destruct (Fs.blocked dir emptyDisk) eqn:Hb; [| discriminate].
  apply existsb_exists in Hb as (a & _ & Ha). apply bool_decide_eq_true in Ha.
  by apply elem_of_empty in Ha.
Qed.

(** C4: in a run whose download resolved to [true], every entry that the
    extraction reaches, that is every entry before which no creation threw,
    leaves its effect in the trace of [make], in the order of the archive: a
    directory entry the creation of its destination with the recursive
    option, any other entry a stream to its destination unless its base
    name, the last segment of its path, is package-lock.json, and then
    nothing. The destination is the output directory joined with the path
    without its first segment: the rest after the first slash, or nothing
    when the path has no slash. When no creation throws the trace is these
    effects of all entries, between the opening of the archive and the
    assignment of [success], followed by the reports of failed streams; on
    a disk that makes the creations of the world fail or succeed, they
    leave every directory entry with its ancestors among the directories,
    touch no file, and done again give the same disk without an error. The
    entry repo-main/config/app.json extracted to /tmp/app is written to
    /tmp/app/config/app.json. *)
Theorem make_extracts_entries (w : Scaffold.World) (output : string) :
  Scaffold.response w = true →
  (∀ pre e post,
     Scaffold.archive w = Some (pre ++ e :: post) →
     unhindered w output pre →
     ∃ rest,
       Scaffold.trace (Scaffold.make w output)
       = opening w ++ (pre ≫= entryEffects output) ++ entryEffects output e ++ rest)
  ∧ (∀ es,
       Scaffold.archive w = Some es →
       unhindered w output es →
       Scaffold.trace (Scaffold.make w output)
       = opening w ++ (es ≫= entryEffects output) ++ [Scaffold.SetSuccess true]
         ++ Scaffold.streamErrors w (es ≫= entryEffects output)
       ∧ ∀ disk,
           onDisk w disk →
           ∃ disk',
             directoriesAfter (Scaffold.trace (Scaffold.make w output)) disk = Some disk'
             ∧ directoriesAfter (Scaffold.trace (Scaffold.make w output)) disk' = Some disk'
             ∧ Fs.dirs disk ⊆ Fs.dirs disk'
             ∧ Fs.files disk' = Fs.files disk
             ∧ ∀ e a, e ∈ es → Entry.type e = "Directory" →
                      a ∈ Fs.ancestors (destination output e) → a ∈ Fs.dirs disk')
  ∧ (∀ root rest ty,
       oneLine Path.slash root →
       destination output {| Entry.path := root +:+ "/" +:+ rest; Entry.type := ty |}
       = Path.join [output; rest]
       ∧ Scaffold.baseName (root +:+ "/" +:+ rest) = List.last (JS.split Path.slash rest) "")
  ∧ (∀ root ty,
       oneLine Path.slash root →
       destination output {| Entry.path := root; Entry.type := ty |} = Path.join [output; ""]
       ∧ Scaffold.baseName root = root)
  ∧ entryEffects "/tmp/app" {| Entry.path := "repo-main/config/app.json"; Entry.type := "File" |}
    = [Scaffold.WriteStream "/tmp/app/config/app.json"]
  ∧ entryEffects "/tmp/app" {| Entry.path := "repo-main/config/"; Entry.type := "Directory" |}
    = [Scaffold.Mkdir "/tmp/app/config/" true]
  ∧ entryEffects "/tmp/app"
      {| Entry.path := "repo-main/package-lock.json"; Entry.type := "File" |}
    = [].
Proof.
  intros Hresp. split; [| split; [| split; [| split; [| by repeat split]]]].
  - intros pre e post Harch Hpre.
    rewrite (make_trace_entries w output pre (e :: post) Hresp Harch Hpre).
    destruct (forEach_cons w output e post Scaffold.initial) as [-> _].
    rewrite extractEntry_entryEffects. eexists.
    rewrite <- !app_assoc. reflexivity.
  - intros es Harch Hes.
    assert (Htrace : Scaffold.trace (Scaffold.make w output)
                     = opening w ++ (es ≫= entryEffects output) ++ [Scaffold.SetSuccess true]
                       ++ Scaffold.streamErrors w (es ≫= entryEffects output)).
    { rewrite <- (app_nil_r es) in Harch.
      rewrite (make_trace_entries w output es [] Hresp Harch Hes).
      cbn [Scaffold.forEach]. unfold effects, returned, mret, Scaffold.Act_ret. simpl.
      by rewrite !app_nil_r. }
    split; [exact Htrace |]. intros disk Hdisk.
    set (log := Scaffold.trace (Scaffold.make w output)) in *.
    assert (Hmk : ∀ dir recursive, Scaffold.Mkdir dir recursive ∈ log →
                    ∃ e, e ∈ es ∧ Entry.type e = "Directory"
                         ∧ dir = destination output e ∧ recursive = true).
    { intros dir recursive. rewrite Htrace. intros Hin.
      apply elem_of_app in Hin as [Hin | Hin].
      { repeat (apply elem_of_cons in Hin as [Hin | Hin]; [discriminate Hin |]).
        by apply elem_of_nil in Hin. }
      apply elem_of_app in Hin as [Hin | Hin].
      { apply entryEffects_in in Hin as (e & He & Hx).
        apply entryEffects_mkdir in Hx as (Hty & -> & ->). by exists e. }
      apply elem_of_cons in Hin as [Hin | Hin]; [discriminate Hin |].
      apply streamErrors_only in Hin as [msg Hmsg]. discriminate Hmsg. }
    assert (Hfree : ∀ d, ∀ dir recursive, Scaffold.Mkdir dir recursive ∈ log →
                      Fs.files d = Fs.files disk →
                      recursive = true ∧ Fs.blocked dir d = false).
    { intros d dir recursive Hin Hfiles.
      destruct (Hmk dir recursive Hin) as (e & He & Hty & -> & ->). split; [done |].
      rewrite (blocked_files _ d disk Hfiles).
      specialize (Hes e He Hty).
      destruct (Fs.blocked (destination output e) disk) eqn:Hb; [| done].
      assert (Hnone : Fs.mkdirSync (destination output e) true disk = None)
        by by rewrite mkdirSync_recursive, Hb.
      apply Hdisk in Hnone. congruence. }
    eexists. split; [| split; [| split; [| split]]].
    + apply directoriesAfter_recursive. intros dir recursive Hin. by apply (Hfree disk).
    + rewrite directoriesAfter_recursive by (intros dir recursive Hin; by apply Hfree).
      cbn [Fs.dirs Fs.files].
      by rewrite <- (assoc_L (∪)), (idemp_L (∪)).
    + cbn [Fs.dirs]. apply union_subseteq_l.
    + reflexivity.
    + intros e a He Hty Ha. cbn [Fs.dirs]. apply elem_of_union_r.
      apply (created_elem log (destination output e) true a); [| done].
      subst log. rewrite Htrace. apply elem_of_app. right. apply elem_of_app. left.
      apply entryEffects_in. exists e. split; [done |]. by apply entryEffects_mkdir.
  - intros root rest ty Hroot. unfold destination. cbn [Entry.path].
    split; [by rewrite relativePath_strip | by apply baseName_strip].
  - intros root ty Hroot. unfold destination. cbn [Entry.path].
    split; [by rewrite relativePath_one_segment | by apply baseName_one_segment].
Qed.

(** The sample archive extracted to [/tmp/app]: two directories are created,
    the file under [config] is written and the lock file is left out; on an
    empty disk the directories and their ancestors exist afterwards. *)
Lemma make_extracts_entries_sample :
  Scaffold.trace (Scaffold.make quietWorld "/tmp/app")
  = [ Scaffold.SetBusy true;
      Scaffold.Download Scaffold.url "/tmp/formidablejs-master.zip";
      Scaffold.SetBusy false;
      Scaffold.OpenArchive "/tmp/formidablejs-master.zip";
      Scaffold.Mkdir "/tmp/app" true;
      Scaffold.Mkdir "/tmp/app/config/" true;
      Scaffold.WriteStream "/tmp/app/config/app.json";
      Scaffold.SetSuccess true ]
  ∧ ∃ disk',
      directoriesAfter (Scaffold.trace (Scaffold.make quietWorld "/tmp/app")) emptyDisk
      = Some disk'
      ∧ directoriesAfter (Scaffold.trace (Scaffold.make quietWorld "/tmp/app")) disk'
        = Some disk'
      ∧ "/tmp/app/config" ∈ Fs.dirs disk'.
Proof.
  destruct (proj1 (proj2 (make_extracts_entries quietWorld "/tmp/app" eq_refl))
              sampleArchive eq_refl (fun _ _ _ => eq_refl)) as [Htrace Hdisk].
  split; [exact Htrace |].
  destruct (Hdisk emptyDisk onDisk_quiet) as (disk' & Hfirst & Hagain & _ & _ & Hdirs).
  exists disk'. split; [done |]. split; [done |].
  apply (Hdirs {| Entry.path := "repo-main/config/"; Entry.type := "Directory" |});
    [| reflexivity |].
  - apply list_elem_of_further, list_elem_of_here.
  - do 2 apply list_elem_of_further. apply list_elem_of_here.
Defined.

(** ** The success of the flow *)

(** C3, as stated, fails: the download resolves to [true], creating the
    second directory of the archive throws, and [success] is [false] when
    nothing is left to run; the same when the archive cannot be opened. *)
Lemma make_download_true_success_false :
  Scaffold.response blockedWorld = true
  ∧ Scaffold.success (Scaffold.final (Scaffold.make blockedWorld "/tmp/app")) = false
  ∧ Scaffold.response unreadableWorld = true
  ∧ Scaffold.success (Scaffold.final (Scaffold.make unreadableWorld "/tmp/app")) = false
  ∧ (Scaffold.SetSuccess false ∉ Scaffold.trace (Scaffold.make blockedWorld "/tmp/app"))
  ∧ ¬ (∀ w output,
         Scaffold.success (Scaffold.final (Scaffold.make w output)) = true
         ↔ Scaffold.response w = true).
Proof.
  do 4 (split; [reflexivity |]). split.
  - intros Hin. vm_compute in Hin.
    repeat (apply elem_of_cons in Hin as [Hin | Hin]; [discriminate Hin |]).
    by apply elem_of_nil in Hin.
  - intros H. destruct (H blockedWorld "/tmp/app") as [_ Hback].
    specialize (Hback eq_refl). discriminate Hback.
Qed.

(** C3, amended: when nothing of [make] is left to run, [success] is [true]
    exactly when the download resolved to [true], the archive was opened and
    no creation of a directory threw; [success] is assigned [true] only in a
    run whose download resolved to [true], and [false] only in one whose
    download did not; the errors of the file streams change neither whether
    the callback returns nor the state the run ends in. *)
Theorem make_success_iff_extracted (w : Scaffold.World) (output : string) :
  (Scaffold.success (Scaffold.final (Scaffold.make w output)) = true
   ↔ Scaffold.response w = true
     ∧ ∃ es, Scaffold.archive w = Some es ∧ unhindered w output es)
  ∧ (Scaffold.SetSuccess true ∈ Scaffold.trace (Scaffold.make w output)
     → Scaffold.response w = true)
  ∧ (Scaffold.SetSuccess false ∈ Scaffold.trace (Scaffold.make w output)
     → Scaffold.response w = false)
  ∧ ∀ errors,
      Scaffold.completed (Scaffold.make (withWriteErrors w errors) output)
      = Scaffold.completed (Scaffold.make w output)
      ∧ Scaffold.final (Scaffold.make (withWriteErrors w errors) output)
        = Scaffold.final (Scaffold.make w output).
Proof.
  split; [| split; [| split]].
  - rewrite make_outcome.
    destruct (Scaffold.response w); cbn [negb].
    + destruct (Scaffold.archive w) as [es|].
      * cbv zeta. cbn [Scaffold.final Scaffold.success]. rewrite forEach_returned.
        split.
        -- intros Hes. split; [done |]. by exists es.
        -- by intros (_ & es' & [= <-] & Hes).
      * cbn [Scaffold.final Scaffold.success Scaffold.initial].
        split; [discriminate |]. by intros (_ & es & Hes & _).
    + cbn [Scaffold.final Scaffold.success Scaffold.initial].
      split; [discriminate |]. by intros [? _].
  - intros Hin. rewrite make_outcome in Hin.
    destruct (Scaffold.response w); cbn [negb] in *; [done |].
    cbn [Scaffold.trace] in Hin.
    repeat (apply elem_of_cons in Hin as [Hin | Hin]; [discriminate Hin |]).
    by apply elem_of_nil in Hin.
  - intros Hin. rewrite make_outcome in Hin.
    destruct (Scaffold.response w); cbn [negb] in *; [| done].
    destruct (Scaffold.archive w) as [es|].
    + destruct (forEach_keeps_state w output es Scaffold.initial) as [_ Hlog].
      cbv zeta in Hin. cbn [Scaffold.trace] in Hin.
      apply elem_of_app in Hin as [Hin | Hin].
      * repeat (apply elem_of_cons in Hin as [Hin | Hin]; [discriminate Hin |]).
        apply elem_of_app in Hin as [Hin | Hin].
        -- rewrite Forall_forall in Hlog. by apply Hlog in Hin.
        -- destruct (returned _); [| by apply elem_of_nil in Hin].
           apply list_elem_of_singleton in Hin. discriminate Hin.
      * apply streamErrors_only in Hin as [msg Hmsg]. discriminate Hmsg.
    + cbn [Scaffold.trace] in Hin.
      repeat (apply elem_of_cons in Hin as [Hin | Hin]; [discriminate Hin |]).
      by apply elem_of_nil in Hin.
  - intros errors. rewrite !make_outcome.
    cbn [withWriteErrors Scaffold.response Scaffold.archive].
    rewrite extractEntry_withWriteErrors.
    destruct (Scaffold.response w); cbn [negb]; [| done].
    by destruct (Scaffold.archive w).
Qed.

(** A run in which every file stream fails: the error is reported, last, and
    [success] is [true] all the same. *)
Lemma make_success_despite_write_errors :
  last (Scaffold.trace (Scaffold.make readOnlyWorld "/tmp/app"))
    = Some (Scaffold.CommandError "Could not create Formidablejs application")
  ∧ Scaffold.success (Scaffold.final (Scaffold.make readOnlyWorld "/tmp/app")) = true.
Proof.
  split; [reflexivity |].
  apply (proj1 (make_success_iff_extracted readOnlyWorld "/tmp/app")).
  split; [reflexivity |]. exists sampleArchive. split; [reflexivity |].
  intros e _ _. reflexivity.
Defined.

(** ** The table of connections *)

Ltac by_driver d :=
  repeat match goal with
         | |- context [String.eqb d ?s] => destruct (String.eqb_spec d s) as [-> | ?]
         end.

Lemma connectionOf_cases (d : option string) :
  (d = Some "mysql" ∧ Scaffold.connectionOf d = "mysql")
  ∨ (d = Some "pg" ∧ Scaffold.connectionOf d = "pgsql")
  ∨ (d = Some "sqlite3" ∧ Scaffold.connectionOf d = "sqlite")
  ∨ (d = Some "tedious" ∧ Scaffold.connectionOf d = "mssql")
  ∨ (d = Some "oracledb" ∧ Scaffold.connectionOf d = "oracle")
  ∨ ((d ∉ [Some "mysql"; Some "pg"; Some "sqlite3"; Some "tedious"; Some "oracledb"])
     ∧ Scaffold.connectionOf d = "").
Proof.
  destruct d as [d|]; unfold Scaffold.connectionOf.
  - by_driver d; try tauto.
    do 5 right. split; [| done]. intros Hin.
    repeat (apply elem_of_cons in Hin as [Hin | Hin]; [congruence |]).
    by apply elem_of_nil in Hin.
  - do 5 right. split; [| done]. intros Hin.
    repeat (apply elem_of_cons in Hin as [Hin | Hin]; [discriminate Hin |]).
    by apply elem_of_nil in Hin.
Qed.

(** X9: the [switch] of [setDatabase] sends different drivers to different
    connections: a connection that is not empty comes from one driver only.
    The connection is [sqlite] for the driver [sqlite3] and no other value,
    so the database configuration is handed to the Line Mutator exactly for
    that driver; it is empty exactly for a value outside the five, and then
    the driver that getDependencies installs has no connection. *)
Theorem connectionOf_table (d : option string) :
  (Scaffold.connectionOf d = "sqlite" ↔ d = Some "sqlite3")
  ∧ (Scaffold.connectionOf d = ""
     ↔ d ∉ [Some "mysql"; Some "pg"; Some "sqlite3"; Some "tedious"; Some "oracledb"])
  ∧ (∀ d', Scaffold.connectionOf d ≠ "" →
           Scaffold.connectionOf d = Scaffold.connectionOf d' → d = d')
  ∧ (∀ o output fs,
       database o = d → d ≠ Some "skip" →
       Scaffold.setDatabase o output fs
       = updateLine (Path.join [output; ".env"])
           (Scaffold.dbConnectionLine (Scaffold.connectionOf d)) fs
         ≫= fun fs' =>
              if bool_decide (d = Some "sqlite3")
              then updateLine (Path.join [output; "config"; "database.imba"])
                     Scaffold.nullAsDefaultLine fs'
              else Some fs').
Proof.
  assert (Hsqlite : Scaffold.connectionOf d = "sqlite" ↔ d = Some "sqlite3").
  { destruct (connectionOf_cases d) as [H|[H|[H|[H|[H|H]]]]];
      destruct H as [Hd Hc]; rewrite Hc; split; intros Heq;
      try discriminate Heq; try done; try (rewrite Hd in Heq; discriminate Heq).
    exfalso. apply Hd. rewrite Heq.
    do 2 apply list_elem_of_further. apply list_elem_of_here. }
  split; [exact Hsqlite | split; [| split]].
  - destruct (connectionOf_cases d) as [H|[H|[H|[H|[H|H]]]]];
      destruct H as [Hd Hc]; rewrite Hc; split; intros Heq;
      try discriminate Heq; try done.
    all: exfalso; apply Heq; rewrite Hd;
      repeat first [apply list_elem_of_here | apply list_elem_of_further].
  - intros d' Hne Heq.
    destruct (connectionOf_cases d) as [H|[H|[H|[H|[H|H]]]]];
      destruct H as [Hd Hc]; rewrite Hc in *; try done;
      destruct (connectionOf_cases d') as [H'|[H'|[H'|[H'|[H'|H']]]]];
      destruct H' as [Hd' Hc']; rewrite Hc' in Heq; try discriminate Heq;
      congruence.
  - intros o output fs Hdb Hskip. unfold Scaffold.setDatabase.
    rewrite strictEq_decide, Hdb, bool_decide_eq_false_2 by done.
    destruct (updateLine _ _ fs) as [fs'|]; [| done]. cbn [mbind option_bind].
    destruct (String.eqb_spec (Scaffold.connectionOf d) "sqlite") as [Hc | Hc].
    + by rewrite bool_decide_eq_true_2 by by apply Hsqlite.
    + rewrite bool_decide_eq_false_2; [done |]. intros Hd. by apply Hc, Hsqlite.
Qed.

(** ** The order of the line transforms *)

Lemma trim_first (s : string) : ∃ t, JS.trim (String "D" s) = String "D" t.
Proof.
  assert (Hstart : JS.trimStart (String "D" s) = String "D" s)
    by (destruct s as [|b2 [|b3 r3]]; reflexivity).
  unfold JS.trim. rewrite Hstart. cbn [JS.trimEnd]. unfold JS.blank.
  rewrite Hstart. by eexists.
Qed.

Lemma startsWith_first (l : string) :
  Scaffold.dbConnectionMatches l = true → ∃ rest, l = String "D" rest.
Proof.
  unfold Scaffold.dbConnectionMatches, JS.startsWith. destruct l as [|c l]; [done |].
  intros H%String.prefix_correct. simpl in H. injection H as -> _. by eexists.
Qed.

Lemma clientUrl_not_D (rest : string) : Scaffold.clientUrlMatches (String "D" rest) = false.
Proof.
  unfold Scaffold.clientUrlMatches.
  destruct (trim_first rest) as [t ->]. reflexivity.
Qed.

(** X10: the two transforms that rewrite the environment file, and the two
    that rewrite the session file, do not meet: no line matches both of a
    pair, and on every line the two give the same result in either order,
    so that the order of the steps in the chain does not matter for them. *)
Theorem line_transforms_commute :
  (∀ connection l,
     Scaffold.clientUrlLine (Scaffold.dbConnectionLine connection l)
     = Scaffold.dbConnectionLine connection (Scaffold.clientUrlLine l))
  ∧ (∀ l, ¬ (Scaffold.clientUrlMatches l = true ∧ Scaffold.dbConnectionMatches l = true))
  ∧ (∀ l, Scaffold.driverLine (Scaffold.sameSiteLine l)
          = Scaffold.sameSiteLine (Scaffold.driverLine l))
  ∧ (∀ l, ¬ (Scaffold.driverMatches l = true ∧ Scaffold.sameSiteMatches l = true)).
Proof.
  assert (Henv : ∀ l, ¬ (Scaffold.clientUrlMatches l = true
                         ∧ Scaffold.dbConnectionMatches l = true)).
  { intros l [Hc [rest ->]%startsWith_first]. by rewrite clientUrl_not_D in Hc. }
  assert (Hsession : ∀ l, ¬ (Scaffold.driverMatches l = true
                             ∧ Scaffold.sameSiteMatches l = true)).
  { intros l [Hd Hs]. unfold Scaffold.driverMatches, Scaffold.sameSiteMatches in *.
    apply String.eqb_eq in Hd. rewrite Hd in Hs. discriminate Hs. }
  split; [| split; [exact Henv | split; [| exact Hsession]]].
  - intros connection l. unfold Scaffold.dbConnectionLine at 1.
    destruct (Scaffold.dbConnectionMatches l) eqn:Hdb.
    + assert (Hcl : Scaffold.clientUrlMatches l = false).
      { destruct (Scaffold.clientUrlMatches l) eqn:E; [| done]. by destruct (Henv l). }
      unfold Scaffold.clientUrlLine at 2. rewrite Hcl.
      unfold Scaffold.dbConnectionLine. rewrite Hdb.
      unfold Scaffold.clientUrlLine.
      change ("DB_CONNECTION=" +:+ connection)
        with (String "D" ("B_CONNECTION=" +:+ connection)).
      by rewrite clientUrl_not_D.
    + unfold Scaffold.clientUrlLine.
      destruct (Scaffold.clientUrlMatches l) eqn:Hcl.
      * reflexivity.
      * unfold Scaffold.dbConnectionLine. by rewrite Hdb.
  - intros l. unfold Scaffold.sameSiteLine at 1.
    destruct (Scaffold.sameSiteMatches l) eqn:Hs.
    + assert (Hd : Scaffold.driverMatches l = false).
      { destruct (Scaffold.driverMatches l) eqn:E; [| done]. by destruct (Hsession l). }
      unfold Scaffold.driverLine at 2. rewrite Hd.
      unfold Scaffold.sameSiteLine. rewrite Hs. reflexivity.
    + unfold Scaffold.driverLine.
      destruct (Scaffold.driverMatches l) eqn:Hd.
      * reflexivity.
      * unfold Scaffold.sameSiteLine. by rewrite Hs.
Qed.

(** ** The onboarding *)

Lemma truthy_kept (v : option string) :
  JS.truthy (if JS.truthy v then v else None) = JS.truthy v.
Proof. by destruct (JS.truthy v) eqn:E. Qed.

Lemma questions_app (l1 l2 : list Cli.Event) :
  questions (l1 ++ l2) = questions l1 ++ questions l2.
Proof. apply omap_app. Qed.

Lemma onType_stage (a : Cli.Answers) (o : Onboarding) :
  questions (Cli.onType a o).2 = (if JS.truthy (type o) then [] else [Cli.AskType])
  ∧ type (Cli.onType a o).1 = (if JS.truthy (type o) then type o else Cli.answerType a)
  ∧ stack (Cli.onType a o).1 = stack o
  ∧ scaffolding (Cli.onType a o).1 = scaffolding o
  ∧ database (Cli.onType a o).1 = database o
  ∧ manager (Cli.onType a o).1 = manager o.
Proof. unfold Cli.onType. by destruct (JS.truthy (type o)). Qed.

Lemma onDatabase_stage (a : Cli.Answers) (o : Onboarding) :
  questions (Cli.onDatabase a o).2
    = (if JS.truthy (database o) then [] else [Cli.AskDatabase])
  ∧ type (Cli.onDatabase a o).1 = type o
  ∧ stack (Cli.onDatabase a o).1 = stack o
  ∧ scaffolding (Cli.onDatabase a o).1 = scaffolding o
  ∧ database (Cli.onDatabase a o).1
    = (if JS.truthy (database o) then database o else Cli.answerDatabase a)
  ∧ manager (Cli.onDatabase a o).1 = manager o.
Proof.
  unfold Cli.onDatabase. destruct (JS.truthy (database o)); [| done].
  by destruct (negb (JS.strictEq (database o) "skip")).
Qed.

Lemma onStack_stage (a : Cli.Answers) (o : Onboarding) :
  questions (Cli.onStack a o).2
    = (if negb (JS.truthy (stack o)) && JS.strictEq (type o) "full-stack"
       then [Cli.AskStack] else [])
  ∧ type (Cli.onStack a o).1 = type o
  ∧ stack (Cli.onStack a o).1
    = (if negb (JS.truthy (stack o)) && JS.strictEq (type o) "full-stack"
       then Cli.answerStack a else stack o)
  ∧ scaffolding (Cli.onStack a o).1 = scaffolding o
  ∧ database (Cli.onStack a o).1 = database o
  ∧ manager (Cli.onStack a o).1 = manager o.
Proof.
  unfold Cli.onStack.
  destruct (negb (JS.truthy (stack o)) && JS.strictEq (type o) "full-stack"); [done |].
  by destruct (JS.strictEq (type o) "full-stack").
Qed.

Lemma onScaffolding_stage (a : Cli.Answers) (o : Onboarding) :
  questions (Cli.onScaffolding a o).2
    = (if negb (JS.truthy (scaffolding o)) && JS.strictEq (stack o) "imba"
          && JS.strictEq (type o) "full-stack"
       then [Cli.AskScaffolding] else [])
  ∧ type (Cli.onScaffolding a o).1 = type o
  ∧ stack (Cli.onScaffolding a o).1 = stack o
  ∧ scaffolding (Cli.onScaffolding a o).1
    = (if negb (JS.truthy (scaffolding o)) && JS.strictEq (stack o) "imba"
          && JS.strictEq (type o) "full-stack"
       then Cli.answerScaffolding a else scaffolding o)
  ∧ database (Cli.onScaffolding a o).1 = database o
  ∧ manager (Cli.onScaffolding a o).1 = manager o.
Proof.
  unfold Cli.onScaffolding.
  destruct (negb (JS.truthy (scaffolding o)) && JS.strictEq (stack o) "imba"
            && JS.strictEq (type o) "full-stack"); [done |].
  by destruct (JS.strictEq (stack o) "imba" && JS.strictEq (type o) "full-stack").
Qed.

Lemma onManager_stage (a : Cli.Answers) (o : Onboarding) :
  questions (Cli.onManager a o).2 = (if JS.truthy (manager o) then [] else [Cli.AskManager])
  ∧ type (Cli.onManager a o).1 = type o
  ∧ stack (Cli.onManager a o).1 = stack o
  ∧ scaffolding (Cli.onManager a o).1 = scaffolding o
  ∧ database (Cli.onManager a o).1 = database o
  ∧ manager (Cli.onManager a o).1
    = (if JS.truthy (manager o) then manager o else Cli.answerManager a).
Proof. unfold Cli.onManager. by destruct (JS.truthy (manager o)). Qed.

(** The final answers and the questions asked, from the flags and the
    answers to the prompts. *)
Lemma onboard_stages (a : Cli.Answers) (f : Flags.t) :
  let final := (Cli.onboard a f).1 in
  type final = (if JS.truthy (Flags.type f) then Flags.type f else Cli.answerType a)
  ∧ database final
    = (if JS.truthy (database (Cli.fromFlags a f)) then database (Cli.fromFlags a f)
       else Cli.answerDatabase a)
  ∧ stack final
    = (if JS.truthy (Flags.stack f) then Flags.stack f
       else if JS.strictEq (type final) "full-stack" then Cli.answerStack a else None)
  ∧ scaffolding final
    = (if JS.truthy (Flags.scaffolding f) then Flags.scaffolding f
       else if JS.strictEq (stack final) "imba" && JS.strictEq (type final) "full-stack"
            then Cli.answerScaffolding a else None)
  ∧ manager final
    = (if JS.truthy (Flags.manager f) then Flags.manager f else Cli.answerManager a)
  ∧ questions (Cli.onboard a f).2
    = (if JS.truthy (Flags.type f) then [] else [Cli.AskType])
      ++ (if JS.truthy (database (Cli.fromFlags a f)) then [] else [Cli.AskDatabase])
      ++ (if negb (JS.truthy (Flags.stack f)) && JS.strictEq (type final) "full-stack"
          then [Cli.AskStack] else [])
      ++ (if negb (JS.truthy (Flags.scaffolding f)) && JS.strictEq (stack final) "imba"
             && JS.strictEq (type final) "full-stack"
          then [Cli.AskScaffolding] else [])
      ++ (if JS.truthy (Flags.manager f) then [] else [Cli.AskManager]).
Proof.
  unfold Cli.onboard.
  pose proof (onType_stage a (Cli.fromFlags a f)) as (Q1 & T1 & S1 & C1 & D1 & M1).
  destruct (Cli.onType a (Cli.fromFlags a f)) as [o1 e1]. cbn [fst snd] in *.
  pose proof (onDatabase_stage a o1) as (Q2 & T2 & S2 & C2 & D2 & M2).
  rewrite D1 in Q2, D2. rewrite T1 in T2. rewrite S1 in S2. rewrite C1 in C2.
  rewrite M1 in M2.
  destruct (Cli.onDatabase a o1) as [o2 e2]. cbn [fst snd] in *.
  pose proof (onStack_stage a o2) as (Q3 & T3 & S3 & C3 & D3 & M3).
  rewrite S2, T2 in Q3, S3. rewrite T2 in T3. rewrite C2 in C3. rewrite D2 in D3.
  rewrite M2 in M3.
  destruct (Cli.onStack a o2) as [o3 e3]. cbn [fst snd] in *.
  pose proof (onScaffolding_stage a o3) as (Q4 & T4 & S4 & C4 & D4 & M4).
  rewrite C3, S3, T3 in Q4, C4. rewrite T3 in T4. rewrite S3 in S4. rewrite D3 in D4.
  rewrite M3 in M4.
  destruct (Cli.onScaffolding a o3) as [o4 e4]. cbn [fst snd] in *.
  pose proof (onManager_stage a o4) as (Q5 & T5 & S5 & C5 & D5 & M5).
  rewrite M4 in Q5, M5. rewrite T4 in T5. rewrite S4 in S5. rewrite C4 in C5.
  rewrite D4 in D5.
  destruct (Cli.onManager a o4) as [o5 e5]. cbn [fst snd] in *.
  rewrite !questions_app, Q1, Q2, Q3, Q4, Q5, T5, S5, C5, D5, M5.
  clear. unfold Cli.fromFlags. cbn [type stack scaffolding database manager].
  rewrite !truthy_kept.
  destruct (JS.truthy (Flags.type f)), (JS.truthy (Flags.stack f)),
    (JS.truthy (Flags.scaffolding f)), (JS.truthy (Flags.manager f));
    cbn [negb andb JS.truthy JS.strictEq]; repeat split; try reflexivity;
    repeat match goal with
           | |- context [JS.strictEq ?x ?y] => destruct (JS.strictEq x y)
           end; reflexivity.
Qed.

Ltac sublist_of_fixed :=
  repeat first [apply sublist_nil_l | apply sublist_skip | apply sublist_cons].

(** X11: the onboarding asks its questions in one order, type, database,
    stack, scaffolding, manager, each at most once. The type and the manager
    are asked exactly when their flag is not given, the database exactly when
    no driver came out of its flag; the stack exactly when
    its flag is not given and the type has come out full-stack; the
    scaffolding exactly when its flag is not given, the type is full-stack
    and the stack has come out as [imba], letter for letter. So an
    application that is not full-stack is asked neither. *)
Theorem onboard_questions (a : Cli.Answers) (f : Flags.t) :
  let final := (Cli.onboard a f).1 in
  let asked := questions (Cli.onboard a f).2 in
  sublist asked
    [Cli.AskType; Cli.AskDatabase; Cli.AskStack; Cli.AskScaffolding; Cli.AskManager]
  ∧ (Cli.AskType ∈ asked ↔ ¬ given (Flags.type f))
  ∧ (Cli.AskManager ∈ asked ↔ ¬ given (Flags.manager f))
  ∧ (Cli.AskDatabase ∈ asked ↔ ¬ given (database (Cli.fromFlags a f)))
  ∧ (Cli.AskStack ∈ asked
     ↔ ¬ given (Flags.stack f) ∧ type final = Some "full-stack")
  ∧ (Cli.AskScaffolding ∈ asked
     ↔ ¬ given (Flags.scaffolding f) ∧ stack final = Some "imba"
       ∧ type final = Some "full-stack")
  ∧ (type final ≠ Some "full-stack"
     → (Cli.AskStack ∉ asked) ∧ (Cli.AskScaffolding ∉ asked)).
Proof.
  intros final asked.
  pose proof (onboard_stages a f) as (_ & _ & _ & _ & _ & Hasked).
  fold final in Hasked. subst asked. rewrite Hasked. clear Hasked.
  unfold given. rewrite !strictEq_decide.
  destruct (JS.truthy (Flags.type f)), (JS.truthy (database (Cli.fromFlags a f))),
    (JS.truthy (Flags.stack f)), (JS.truthy (Flags.scaffolding f)),
    (JS.truthy (Flags.manager f));
    repeat case_bool_decide; cbn [negb andb app];
    (split; [sublist_of_fixed |]); repeat split; intros; in_list.
Qed.

(** X12: a flag that is given is never overwritten by a prompt: the final
    type, stack, scaffolding and manager are those flags, and the final
    database is what [Database.getDriver] makes of the flag, if it makes
    something of it. What is not given is the answer of its prompt when the
    prompt is asked: the type, the manager and the database always, the
    stack of a full-stack application, the scaffolding of a full-stack
    application on Imba; it stays unset otherwise. When all is given nothing
    is asked. *)
Theorem onboard_flags_win (a : Cli.Answers) (f : Flags.t) :
  let final := (Cli.onboard a f).1 in
  (given (Flags.type f) → type final = Flags.type f)
  ∧ (given (Flags.stack f) → stack final = Flags.stack f)
  ∧ (given (Flags.scaffolding f) → scaffolding final = Flags.scaffolding f)
  ∧ (given (Flags.manager f) → manager final = Flags.manager f)
  ∧ (∀ label, Flags.database f = Some label → label ≠ "" →
       given (Cli.getDriver a label) → database final = Cli.getDriver a label)
  ∧ (¬ given (Flags.type f) → type final = Cli.answerType a)
  ∧ (¬ given (Flags.manager f) → manager final = Cli.answerManager a)
  ∧ (¬ given (database (Cli.fromFlags a f)) → database final = Cli.answerDatabase a)
  ∧ (¬ given (Flags.stack f) → type final = Some "full-stack" →
     stack final = Cli.answerStack a)
  ∧ (¬ given (Flags.stack f) → type final ≠ Some "full-stack" → stack final = None)
  ∧ (¬ given (Flags.scaffolding f) →
     type final = Some "full-stack" → stack final = Some "imba" →
     scaffolding final = Cli.answerScaffolding a)
  ∧ (¬ given (Flags.scaffolding f) →
     type final ≠ Some "full-stack" ∨ stack final ≠ Some "imba" →
     scaffolding final = None)
  ∧ (given (Flags.type f) → given (Flags.stack f) → given (Flags.scaffolding f) →
     given (Flags.manager f) → given (database (Cli.fromFlags a f)) →
     questions (Cli.onboard a f).2 = []).
Proof.
  intros final.
  pose proof (onboard_stages a f) as (Hty & Hdb & Hst & Hsc & Hmg & Hasked).
  fold final in Hty, Hdb, Hst, Hsc, Hmg, Hasked. unfold given.
  rewrite Hasked. rewrite !strictEq_decide in *.
  split; [| split; [| split; [| split; [| split; [| split; [| split; [| split;
    [| split; [| split; [| split; [| split]]]]]]]]]]].
  - intros H. by rewrite Hty, H.
  - intros H. by rewrite Hst, H.
  - intros H. by rewrite Hsc, H.
  - intros H. by rewrite Hmg, H.
  - intros label Hlabel Hne Hdriver. rewrite Hdb. unfold Cli.fromFlags.
    cbn [database]. rewrite Hlabel.
    assert (Hgiven : JS.truthy (Some label) = true).
    { unfold JS.truthy. apply String.eqb_neq in Hne. by rewrite Hne. }
    rewrite Hgiven. cbv iota. by rewrite Hdriver.
  - intros H. apply not_true_is_false in H. by rewrite Hty, H.
  - intros H. apply not_true_is_false in H. by rewrite Hmg, H.
  - intros H. apply not_true_is_false in H. by rewrite Hdb, H.
  - intros H Hfull. apply not_true_is_false in H. rewrite Hst, H.
    by rewrite bool_decide_eq_true_2.
  - intros H Hfull. apply not_true_is_false in H. rewrite Hst, H.
    by rewrite bool_decide_eq_false_2.
  - intros H Hfull Himba. apply not_true_is_false in H. rewrite Hsc, H.
    by rewrite !bool_decide_eq_true_2.
  - intros H Hnot. apply not_true_is_false in H. rewrite Hsc, H.
    repeat case_bool_decide; cbn [andb]; first [done | exfalso; tauto].
  - intros -> -> -> -> ->. reflexivity.
Qed.

(** With every flag given nothing is asked and the answers are the flags;
    the stack and the scaffolding of an API application are kept as given. *)
Lemma onboard_flags_win_allFlags :
  type (Cli.onboard imbaAnswers allFlags).1 = Some "api"
  ∧ stack (Cli.onboard imbaAnswers allFlags).1 = Some "react"
  ∧ database (Cli.onboard imbaAnswers allFlags).1 = Some "pg".
Proof.
  pose proof (onboard_flags_win imbaAnswers allFlags) as (Hty & Hst & _ & _ & Hdb & _).
  split; [exact (Hty eq_refl) |]. split; [exact (Hst eq_refl) |].
  apply (Hdb "PostgreSQL / Amazon Redshift"); [reflexivity | discriminate | reflexivity].
Defined.

(** With no flag given every answer is that of its prompt. *)
Example onboard_noFlags_imbaAnswers :
  (Cli.onboard imbaAnswers noFlags).1
  = {| type := Some "full-stack"; stack := Some "imba"; scaffolding := Some "spa";
       database := Some "sqlite3"; manager := Some "npm" |}.
Proof. reflexivity. Qed.
